(** * RiscVEdk2SbiLib: the SBI ecall library of the RISC-V ProcessorPkg

    A shallow embedding of
      Silicon/RISC-V/ProcessorPkg/Include/IndustryStandard/RiscVOpensbi.h
      Silicon/RISC-V/ProcessorPkg/Include/Library/RiscVEdk2SbiLib.h
      Silicon/RISC-V/ProcessorPkg/Library/RiscVEdk2SbiLib/RiscVEdk2SbiLib.c

    UINTN and uintptr_t are 64-bit words, written as [Z] with the wrap-around
    spelled out; [long] is the signed reading of such a word.  Memory is a
    finite map from byte addresses to bytes, pointers are addresses, and a
    word is the eight bytes from its address on, little-endian.  The library
    functions run in a small state monad over the machine (memory, the state
    of the SBI runtime behind the trap, and the list of traps taken so far);
    a computation either returns, stops at a failed assertion, or is
    undefined. *)

From Stdlib Require Import ZArith List Bool Lia.
From stdpp Require Import base option gmap.
Import ListNotations.

Local Open Scope Z_scope.

(** ** Machine words *)

Definition XLEN : Z := 64.

(** Conversion to UINTN / uintptr_t: reduction modulo 2^XLEN. *)
Definition to_UINTN (z : Z) : Z := z mod 2 ^ XLEN.

(** Conversion to [long]: the two's complement reading of the low XLEN bits. *)
Definition to_long (z : Z) : Z :=
  let u := to_UINTN z in
  if u <? 2 ^ (XLEN - 1) then u else u - 2 ^ XLEN.

(** ** RiscVOpensbi.h: SBI status codes *)

Definition SBI_SUCCESS : Z := 0.
Definition SBI_ERR_FAILED : Z := -1.
Definition SBI_ERR_NOT_SUPPORTED : Z := -2.
Definition SBI_ERR_INVALID_PARAM : Z := -3.
Definition SBI_ERR_DENIED : Z := -4.
Definition SBI_ERR_INVALID_ADDRESS : Z := -5.
Definition SBI_ERR_ALREADY_AVAILABLE : Z := -6.

Definition SBI_EXT_FIRMWARE_CODE_BASE_START : Z := 0x0A000000.
Definition SBI_EXT_FIRMWARE_CODE_BASE_END : Z := 0x0AFFFFFF.

Definition RISC_V_MAX_HART_SUPPORTED : Z := 16.

(** The seven status codes the header defines. *)
Definition sbi_status_codes : list Z :=
  [SBI_SUCCESS; SBI_ERR_FAILED; SBI_ERR_NOT_SUPPORTED; SBI_ERR_INVALID_PARAM;
   SBI_ERR_DENIED; SBI_ERR_INVALID_ADDRESS; SBI_ERR_ALREADY_AVAILABLE].

(** ** EFI_STATUS: the values the library returns *)

Inductive EFI_STATUS : Set :=
  | EFI_SUCCESS
  | EFI_LOAD_ERROR
  | EFI_INVALID_PARAMETER
  | EFI_UNSUPPORTED
  | EFI_DEVICE_ERROR
  | EFI_ACCESS_DENIED
  | EFI_ALREADY_STARTED.

(** ** Constants of the OpenSBI headers

    sbi/sbi_ecall_interface.h, sbi/sbi_scratch.h and sbi/sbi_platform.h belong
    to OpenSBI; the library only names their constants.  They are collected
    in a record and every function below takes them from it. *)

Record sbi_ecall_interface : Set := {
  SBI_EXT_BASE : Z;
  SBI_EXT_HSM : Z;
  SBI_EXT_TIME : Z;
  SBI_EXT_IPI : Z;
  SBI_EXT_RFENCE : Z;
  SBI_EXT_BASE_GET_SPEC_VERSION : Z;
  SBI_EXT_BASE_GET_IMP_ID : Z;
  SBI_EXT_BASE_GET_IMP_VERSION : Z;
  SBI_EXT_BASE_PROBE_EXT : Z;
  SBI_EXT_BASE_GET_MVENDORID : Z;
  SBI_EXT_BASE_GET_MARCHID : Z;
  SBI_EXT_BASE_GET_MIMPID : Z;
  SBI_EXT_HSM_HART_START : Z;
  SBI_EXT_HSM_HART_STOP : Z;
  SBI_EXT_HSM_HART_GET_STATUS : Z;
  SBI_EXT_TIME_SET_TIMER : Z;
  SBI_EXT_IPI_SEND_IPI : Z;
  SBI_EXT_RFENCE_REMOTE_FENCE_I : Z;
  SBI_EXT_RFENCE_REMOTE_SFENCE_VMA : Z;
  SBI_EXT_RFENCE_REMOTE_SFENCE_VMA_ASID : Z;
  SBI_EXT_RFENCE_REMOTE_HFENCE_GVMA_VMID : Z;
  SBI_EXT_RFENCE_REMOTE_HFENCE_GVMA : Z;
  SBI_EXT_RFENCE_REMOTE_HFENCE_VVMA_ASID : Z;
  SBI_EXT_RFENCE_REMOTE_HFENCE_VVMA : Z;
  SBI_OPENSBI_IMPID : Z;
  (* offset of platform_addr in struct sbi_scratch *)
  SBI_SCRATCH_PLATFORM_ADDR_OFFSET : Z;
  (* offset of firmware_context in struct sbi_platform *)
  SBI_PLATFORM_FIRMWARE_CONTEXT_OFFSET : Z
}.

(** ** The trap ABI *)

(** The eight registers the ecall reads. *)
Record Regs : Set := {
  a0 : Z; a1 : Z; a2 : Z; a3 : Z; a4 : Z; a5 : Z;  (* arguments *)
  a6 : Z;                                          (* function id *)
  a7 : Z                                           (* extension id *)
}.

(** The six argument slots of a register file, in order. *)
Definition arg_slots (r : Regs) : list Z :=
  [a0 r; a1 r; a2 r; a3 r; a4 r; a5 r].

(** struct sbiret *)
Record sbiret : Set := {
  error : Z;  (* SBI status code *)
  value : Z   (* Value returned *)
}.

(** ** Bytes and words in memory *)

(** The [n] low bytes of a word, least significant first, and back. *)
Fixpoint le_split (n : nat) (v : Z) : list Z :=
  match n with
  | O => []
  | S n' => v mod 256 :: le_split n' (v / 256)
  end.

Fixpoint le_combine (bs : list Z) : Z :=
  match bs with
  | [] => 0
  | b :: bs' => b + 256 * le_combine bs'
  end.

(** Bytes at consecutive addresses from [p] on; addresses wrap at 2^XLEN. *)
Fixpoint store_bytes (p : Z) (bs : list Z) (mm : gmap Z Z) : gmap Z Z :=
  match bs with
  | [] => mm
  | b :: bs' => <[to_UINTN p := b]> (store_bytes (p + 1) bs' mm)
  end.

Fixpoint load_bytes (p : Z) (n : nat) (mm : gmap Z Z) : list Z :=
  match n with
  | O => []
  | S n' => default 0 (mm !! to_UINTN p) :: load_bytes (p + 1) n' mm
  end.


(** ** Outcomes and the machine *)

Inductive outcome (A : Type) : Type :=
  | Returned (a : A)
  | AssertionFailure
  | Undefined.

Arguments Returned {A} a.
Arguments AssertionFailure {A}.
Arguments Undefined {A}.

Section Machine.

(** The private state of the SBI runtime. *)
Variable RT : Type.

Record Machine : Type := {
  mem : gmap Z Z;        (* memory: byte address -> byte *)
  runtime : RT;          (* state of the runtime behind the trap *)
  traps : list Regs      (* the ecalls issued so far, oldest first *)
}.

Definition M (A : Type) : Type := Machine -> outcome A * Machine.

Definition Return {A} (a : A) : M A := fun m => (Returned a, m).

Definition Bind {A B} (c : M A) (k : A -> M B) : M B := fun m =>
  match c m with
  | (Returned a, m') => k a m'
  | (AssertionFailure, m') => (AssertionFailure, m')
  | (Undefined, m') => (Undefined, m')
  end.

Definition undefined {A} : M A := fun m => (Undefined, m).

(** Modelled from the spec: the ASSERT macro of DebugLib is not part of the
    sources; a violated assertion is fatal (abort/assert), the computation
    stops there. *)
Definition ASSERT (Expression : bool) : M unit := fun m =>
  if Expression then (Returned tt, m) else (AssertionFailure, m).

(** Reading and writing one 64-bit word of memory through a pointer: the
    eight bytes from [p] on.  A byte that was never written reads as
    zero. *)
Definition peek (p : Z) (m : Machine) : Z :=
  le_combine (load_bytes p 8 (mem m)).

Definition poke (p v : Z) (m : Machine) : Machine :=
  {| mem := store_bytes p (le_split 8 v) (mem m);
     runtime := runtime m; traps := traps m |}.

Definition load (p : Z) : M Z := fun m => (Returned (peek p m), m).

Definition store (p v : Z) : M unit := fun m => (Returned tt, poke p v m).

End Machine.

Arguments mem {RT} _.
Arguments runtime {RT} _.
Arguments traps {RT} _.
Arguments Build_Machine {RT} _ _ _.
Arguments Return {RT A} a _.
Arguments Bind {RT A B} c k _.
Arguments undefined {RT A} _.
Arguments ASSERT {RT} Expression _.
Arguments peek {RT} p m.
Arguments poke {RT} p v m.
Arguments load {RT} p _.
Arguments store {RT} p v _.

Declare Scope sbi_scope.
Delimit Scope sbi_scope with sbi.
Notation "x <- c ;; k" := (Bind c (fun x => k))
  (at level 100, c at next level, right associativity) : sbi_scope.
Notation "c ;; k" := (Bind c (fun _ => k))
  (at level 100, right associativity) : sbi_scope.
Local Open Scope sbi_scope.

(** ** RiscVEdk2SbiLib.h: SbiCall and the SbiCall0 .. SbiCall6 macros *)

Section SbiLib.

Variable itf : sbi_ecall_interface.
Variable RT : Type.

(** The SBI runtime: what the trap does with the registers, the memory (the
    asm statement clobbers memory) and its own state, and what it leaves
    in a0 and a1. *)
Variable sbi_ecall : Regs -> gmap Z Z * RT -> (Z * Z) * (gmap Z Z * RT).

(** SBI_EDK2_FW_EXT *)
Definition SBI_EDK2_FW_EXT : Z :=
  Z.lor SBI_EXT_FIRMWARE_CODE_BASE_START (SBI_OPENSBI_IMPID itf).

Definition SBI_EXT_FW_MSCRATCH_FUNC : Z := 0.
Definition SBI_EXT_FW_MSCRATCH_HARTID_FUNC : Z := 1.

(** The register file [SbiCall] sets up before the ecall. *)
Definition SbiCall_regs (ext_id func_id arg0 arg1 arg2 arg3 arg4 arg5 : Z)
  : Regs :=
  {| a0 := to_UINTN arg0; a1 := to_UINTN arg1; a2 := to_UINTN arg2;
     a3 := to_UINTN arg3; a4 := to_UINTN arg4; a5 := to_UINTN arg5;
     a6 := to_UINTN func_id; a7 := to_UINTN ext_id |}.

(** [SbiCall]: load a0..a7, take the trap, return { a0, a1 }.  The asm
    statement has one output operand, "+r" (a0); a1..a7 are input operands
    and memory is clobbered.  So after the statement the variable a0 holds
    the word the trap left in register a0, while the variable a1 still
    holds the argument it was loaded with: what the trap left in register
    a1 does not reach [ret].  The fields of struct sbiret are [long]. *)
Definition SbiCall (ext_id func_id arg0 arg1 arg2 arg3 arg4 arg5 : Z)
  : M RT sbiret := fun m =>
  let regs := SbiCall_regs ext_id func_id arg0 arg1 arg2 arg3 arg4 arg5 in
  let '((r0, _), (mem', rt')) := sbi_ecall regs (mem m, runtime m) in
  (Returned {| error := to_long r0; value := to_long (a1 regs) |},
   {| mem := mem'; runtime := rt'; traps := traps m ++ [regs] |}).

(** What [SbiCall] returns for one trap with register file [regs] on machine
    [m], and the machine the trap leaves. *)
Definition trap_result (regs : Regs) (m : Machine RT) : sbiret :=
  let '((r0, _), _) := sbi_ecall regs (mem m, runtime m) in
  {| error := to_long r0; value := to_long (a1 regs) |}.

Definition trap_machine (regs : Regs) (m : Machine RT) : Machine RT :=
  let '(_, (mem', rt')) := sbi_ecall regs (mem m, runtime m) in
  {| mem := mem'; runtime := rt'; traps := traps m ++ [regs] |}.

Definition SbiCall0 (ext_id func_id : Z) :=
  SbiCall ext_id func_id 0 0 0 0 0 0.
Definition SbiCall1 (ext_id func_id arg0 : Z) :=
  SbiCall ext_id func_id arg0 0 0 0 0 0.
Definition SbiCall2 (ext_id func_id arg0 arg1 : Z) :=
  SbiCall ext_id func_id arg0 arg1 0 0 0 0.
Definition SbiCall3 (ext_id func_id arg0 arg1 arg2 : Z) :=
  SbiCall ext_id func_id arg0 arg1 arg2 0 0 0.
Definition SbiCall4 (ext_id func_id arg0 arg1 arg2 arg3 : Z) :=
  SbiCall ext_id func_id arg0 arg1 arg2 arg3 0 0.
Definition SbiCall5 (ext_id func_id arg0 arg1 arg2 arg3 arg4 : Z) :=
  SbiCall ext_id func_id arg0 arg1 arg2 arg3 arg4 0.
Definition SbiCall6 (ext_id func_id arg0 arg1 arg2 arg3 arg4 arg5 : Z) :=
  SbiCall ext_id func_id arg0 arg1 arg2 arg3 arg4 arg5.

(** The macro that fits a given argument list, if there is one. *)
Definition SbiCallN (ext_id func_id : Z) (args : list Z)
  : option (M RT sbiret) :=
  match args with
  | [] => Some (SbiCall0 ext_id func_id)
  | [x0] => Some (SbiCall1 ext_id func_id x0)
  | [x0; x1] => Some (SbiCall2 ext_id func_id x0 x1)
  | [x0; x1; x2] => Some (SbiCall3 ext_id func_id x0 x1 x2)
  | [x0; x1; x2; x3] => Some (SbiCall4 ext_id func_id x0 x1 x2 x3)
  | [x0; x1; x2; x3; x4] => Some (SbiCall5 ext_id func_id x0 x1 x2 x3 x4)
  | [x0; x1; x2; x3; x4; x5] =>
      Some (SbiCall6 ext_id func_id x0 x1 x2 x3 x4 x5)
  | _ => None
  end.

(** ** RiscVEdk2SbiLib.c *)

(** Translate SBI error code to EFI status.  The parameter is a UINTN, so
    the case labels are compared as UINTN as well. *)
Definition TranslateError (SbiError : Z) : M RT EFI_STATUS :=
  if SbiError =? to_UINTN SBI_SUCCESS then Return EFI_SUCCESS
  else if SbiError =? to_UINTN SBI_ERR_FAILED then Return EFI_DEVICE_ERROR
  else if SbiError =? to_UINTN SBI_ERR_NOT_SUPPORTED then
    Return EFI_UNSUPPORTED
  else if SbiError =? to_UINTN SBI_ERR_INVALID_PARAM then
    Return EFI_INVALID_PARAMETER
  else if SbiError =? to_UINTN SBI_ERR_DENIED then Return EFI_ACCESS_DENIED
  else if SbiError =? to_UINTN SBI_ERR_INVALID_ADDRESS then
    Return EFI_LOAD_ERROR
  else if SbiError =? to_UINTN SBI_ERR_ALREADY_AVAILABLE then
    Return EFI_ALREADY_STARTED
  else
    (* Reaches here only if SBI has defined a new error type *)
    ASSERT false ;;
    Return EFI_UNSUPPORTED.


(** *** The base extension *)

(** Get the implemented SBI specification version. *)
Definition SbiGetSpecVersion (SpecVersion : Z) : M RT unit :=
  ret <- SbiCall0 (SBI_EXT_BASE itf) (SBI_EXT_BASE_GET_SPEC_VERSION itf) ;;
  if error ret =? 0 then store SpecVersion (to_UINTN (value ret))
  else Return tt.
  (* return TranslateError(ret.error) is commented out in the source *)

(** Get the SBI implementation ID. *)
Definition SbiGetImplId (ImplId : Z) : M RT unit :=
  ret <- SbiCall0 (SBI_EXT_BASE itf) (SBI_EXT_BASE_GET_IMP_ID itf) ;;
  store ImplId (to_UINTN (value ret)).

(** Get the SBI implementation version. *)
Definition SbiGetImplVersion (ImplVersion : Z) : M RT unit :=
  ret <- SbiCall0 (SBI_EXT_BASE itf) (SBI_EXT_BASE_GET_IMP_VERSION itf) ;;
  store ImplVersion (to_UINTN (value ret)).

(** Probe whether an SBI extension is available.  [ExtensionId] is a
    parameter of the function; its body does not mention it. *)
Definition SbiProbeExtension (ExtensionId : Z) (ProbeResult : Z) : M RT unit :=
  ret <- SbiCall0 (SBI_EXT_BASE itf) (SBI_EXT_BASE_PROBE_EXT itf) ;;
  store ProbeResult (to_UINTN (value ret)).

(** Get the CPU's vendor ID. *)
Definition SbiGetMvendorId (MvendorId : Z) : M RT unit :=
  ret <- SbiCall0 (SBI_EXT_BASE itf) (SBI_EXT_BASE_GET_MVENDORID itf) ;;
  store MvendorId (to_UINTN (value ret)).

Definition SbiGetMarchId (MarchId : Z) : M RT unit :=
  ret <- SbiCall0 (SBI_EXT_BASE itf) (SBI_EXT_BASE_GET_MARCHID itf) ;;
  store MarchId (to_UINTN (value ret)).

Definition SbiGetMimpId (MimpId : Z) : M RT unit :=
  ret <- SbiCall0 (SBI_EXT_BASE itf) (SBI_EXT_BASE_GET_MIMPID itf) ;;
  store MimpId (to_UINTN (value ret)).

(** *** The hart state management extension *)

Definition SbiHartStart (HartId StartAddr Priv : Z) : M RT EFI_STATUS :=
  ret <- SbiCall3 (SBI_EXT_HSM itf) (SBI_EXT_HSM_HART_START itf)
                  HartId StartAddr Priv ;;
  TranslateError (to_UINTN (error ret)).

Definition SbiHartStop : M RT EFI_STATUS :=
  Ret <- SbiCall0 (SBI_EXT_HSM itf) (SBI_EXT_HSM_HART_STOP itf) ;;
  TranslateError (to_UINTN (error Ret)).

(** Get the current status of a hart. *)
Definition SbiHartGetStatus (HartId : Z) (HartStatus : Z) : M RT EFI_STATUS :=
  ret <- SbiCall1 (SBI_EXT_HSM itf) (SBI_EXT_HSM_HART_GET_STATUS itf) HartId ;;
  (if error ret =? 0 then store HartStatus (to_UINTN (value ret))
   else Return tt) ;;
  TranslateError (to_UINTN (error ret)).

(** *** Timer and IPI *)

(** The statement is the call alone: its result is dropped and the function
    is VOID. *)
Definition SbiSetTimer (StimeValue : Z) : M RT unit :=
  _ <- SbiCall1 (SBI_EXT_TIME itf) (SBI_EXT_TIME_SET_TIMER itf) StimeValue ;;
  Return tt.

Definition SbiSendIpi (HartMask HartMaskBase : Z) : M RT EFI_STATUS :=
  ret <- SbiCall2 (SBI_EXT_IPI itf) (SBI_EXT_IPI_SEND_IPI itf)
                  HartMask HartMaskBase ;;
  TranslateError (to_UINTN (error ret)).

(** *** Remote fences *)

Definition SbiRemoteFenceI (HartMask HartMaskBase : Z) : M RT EFI_STATUS :=
  ret <- SbiCall2 (SBI_EXT_RFENCE itf) (SBI_EXT_RFENCE_REMOTE_FENCE_I itf)
                  HartMask HartMaskBase ;;
  TranslateError (to_UINTN (error ret)).

Definition SbiRemoteSfenceVma (HartMask HartMaskBase StartAddr Size : Z)
  : M RT EFI_STATUS :=
  ret <- SbiCall4 (SBI_EXT_RFENCE itf) (SBI_EXT_RFENCE_REMOTE_SFENCE_VMA itf)
                  HartMask HartMaskBase StartAddr Size ;;
  TranslateError (to_UINTN (error ret)).

Definition SbiRemoteSfenceVmaAsid (HartMask HartMaskBase StartAddr Size Asid : Z)
  : M RT EFI_STATUS :=
  ret <- SbiCall5 (SBI_EXT_RFENCE itf)
                  (SBI_EXT_RFENCE_REMOTE_SFENCE_VMA_ASID itf)
                  HartMask HartMaskBase StartAddr Size Asid ;;
  TranslateError (to_UINTN (error ret)).

Definition SbiRemoteHFenceGvmaVmid (HartMask HartMaskBase StartAddr Size Vmid : Z)
  : M RT EFI_STATUS :=
  ret <- SbiCall5 (SBI_EXT_RFENCE itf)
                  (SBI_EXT_RFENCE_REMOTE_HFENCE_GVMA itf)
                  HartMask HartMaskBase StartAddr Size Vmid ;;
  TranslateError (to_UINTN (error ret)).

Definition SbiRemoteHFenceGvma (HartMask HartMaskBase StartAddr Size : Z)
  : M RT EFI_STATUS :=
  ret <- SbiCall4 (SBI_EXT_RFENCE itf)
                  (SBI_EXT_RFENCE_REMOTE_HFENCE_GVMA_VMID itf)
                  HartMask HartMaskBase StartAddr Size ;;
  TranslateError (to_UINTN (error ret)).

Definition SbiRemoteHFenceVvmaAsid (HartMask HartMaskBase StartAddr Size Asid : Z)
  : M RT EFI_STATUS :=
  ret <- SbiCall5 (SBI_EXT_RFENCE itf)
                  (SBI_EXT_RFENCE_REMOTE_HFENCE_VVMA itf)
                  HartMask HartMaskBase StartAddr Size Asid ;;
  TranslateError (to_UINTN (error ret)).

Definition SbiRemoteHFenceVvma (HartMask HartMaskBase StartAddr Size : Z)
  : M RT EFI_STATUS :=
  ret <- SbiCall4 (SBI_EXT_RFENCE itf)
                  (SBI_EXT_RFENCE_REMOTE_HFENCE_VVMA_ASID itf)
                  HartMask HartMaskBase StartAddr Size ;;
  TranslateError (to_UINTN (error ret)).

(** *** The vendor extension *)

(** The place of argument position [p] in the evaluation order [order]. *)
Fixpoint rank (p : nat) (order : list nat) : option nat :=
  match order with
  | [] => None
  | q :: rest =>
      if Nat.eqb p q then Some O else option_map S (rank p rest)
  end.

(** VA_ARG(Args, UINTN) written at argument position [p] of a call whose
    argument expressions are evaluated in the order [order]: every
    evaluation takes the next variable argument, so the expression
    evaluated k-th yields the k-th of them.  Taking an argument that was
    not passed is undefined. *)
Definition VA_ARG (order : list nat) (Args : list Z) (p : nat) : option Z :=
  match rank p order with
  | Some k => Args !! k
  | None => None
  end.

(** The values of the VA_ARG expressions at positions 0 .. n-1. *)
Definition VA_ARGS (order : list nat) (Args : list Z) (n : nat)
  : option (list Z) :=
  mapM (VA_ARG order Args) (seq 0 n).

(** C leaves the order in which the arguments of a call are evaluated to the
    compiler.  [va_order n] is the order it chose for a call with n VA_ARG
    arguments: the argument positions 0 .. n-1, first evaluated first. *)
Variable va_order : nat -> list nat.

(** Call a function in a vendor defined SBI extension.  [Args] are the
    variable arguments the caller passed. *)
Definition SbiVendorCall (ExtensionId FunctionId NumArgs : Z) (Args : list Z)
  : M RT EFI_STATUS :=
  ASSERT ((0x09000000 <=? ExtensionId) && (ExtensionId <=? 0x09FFFFFF)) ;;
  match NumArgs with
  | 0 =>
      ret <- SbiCall0 ExtensionId FunctionId ;;
      TranslateError (to_UINTN (error ret))
  | 1 =>
      match Args with
      | x0 :: _ =>
          ret <- SbiCall1 ExtensionId FunctionId x0 ;;
          TranslateError (to_UINTN (error ret))
      | _ => undefined
      end
  | 2 =>
      match VA_ARGS (va_order 2) Args 2 with
      | Some [x0; x1] =>
          ret <- SbiCall2 ExtensionId FunctionId x0 x1 ;;
          TranslateError (to_UINTN (error ret))
      | _ => undefined
      end
  | 3 =>
      match VA_ARGS (va_order 3) Args 3 with
      | Some [x0; x1; x2] =>
          ret <- SbiCall3 ExtensionId FunctionId x0 x1 x2 ;;
          TranslateError (to_UINTN (error ret))
      | _ => undefined
      end
  | 4 =>
      match VA_ARGS (va_order 4) Args 4 with
      | Some [x0; x1; x2; x3] =>
          ret <- SbiCall4 ExtensionId FunctionId x0 x1 x2 x3 ;;
          TranslateError (to_UINTN (error ret))
      | _ => undefined
      end
  | 5 =>
      match VA_ARGS (va_order 5) Args 5 with
      | Some [x0; x1; x2; x3; x4] =>
          ret <- SbiCall5 ExtensionId FunctionId x0 x1 x2 x3 x4 ;;
          TranslateError (to_UINTN (error ret))
      | _ => undefined
      end
  | 6 =>
      match VA_ARGS (va_order 6) Args 6 with
      | Some [x0; x1; x2; x3; x4; x5] =>
          ret <- SbiCall6 ExtensionId FunctionId x0 x1 x2 x3 x4 x5 ;;
          TranslateError (to_UINTN (error ret))
      | _ => undefined
      end
  | _ =>
      (* Too many args. *)
      Return EFI_INVALID_PARAMETER
  end.

(** *** The firmware extension *)

(** sbi_platform_ptr(scratch): the platform_addr field of the scratch space. *)
Definition sbi_platform_ptr (ScratchSpace : Z) : M RT Z :=
  load (to_UINTN (ScratchSpace + SBI_SCRATCH_PLATFORM_ADDR_OFFSET itf)).

(** The address of SbiPlatform->firmware_context. *)
Definition firmware_context_field (SbiPlatform : Z) : Z :=
  to_UINTN (SbiPlatform + SBI_PLATFORM_FIRMWARE_CONTEXT_OFFSET itf).

(** Get scratch space of the current hart. *)
Definition SbiGetMscratch (ScratchSpace : Z) : M RT EFI_STATUS :=
  ret <- SbiCall0 SBI_EDK2_FW_EXT SBI_EXT_FW_MSCRATCH_FUNC ;;
  (if error ret =? 0 then store ScratchSpace (to_UINTN (value ret))
   else Return tt) ;;
  Return EFI_SUCCESS.

(** Get scratch space of the given hart id. *)
Definition SbiGetMscratchHartid (HartId : Z) (ScratchSpace : Z)
  : M RT EFI_STATUS :=
  ret <- SbiCall1 SBI_EDK2_FW_EXT SBI_EXT_FW_MSCRATCH_HARTID_FUNC HartId ;;
  (if error ret =? 0 then store ScratchSpace (to_UINTN (value ret))
   else Return tt) ;;
  Return EFI_SUCCESS.

(** Get firmware context of the calling hart. *)
Definition SbiGetFirmwareContext (FirmwareContext : Z) : M RT EFI_STATUS :=
  ret <- SbiCall0 SBI_EDK2_FW_EXT SBI_EXT_FW_MSCRATCH_FUNC ;;
  (if error ret =? 0 then
     let ScratchSpace := to_UINTN (value ret) in
     SbiPlatform <- sbi_platform_ptr ScratchSpace ;;
     ctx <- load (firmware_context_field SbiPlatform) ;;
     store FirmwareContext ctx
   else Return tt) ;;
  Return EFI_SUCCESS.

(** Set firmware context of the calling hart. *)
Definition SbiSetFirmwareContext (FirmwareContext : Z) : M RT EFI_STATUS :=
  ret <- SbiCall0 SBI_EDK2_FW_EXT SBI_EXT_FW_MSCRATCH_FUNC ;;
  (if error ret =? 0 then
     let ScratchSpace := to_UINTN (value ret) in
     SbiPlatform <- sbi_platform_ptr ScratchSpace ;;
     store (firmware_context_field SbiPlatform) (to_UINTN FirmwareContext)
   else Return tt) ;;
  Return EFI_SUCCESS.

End SbiLib.

(** ** A concrete platform

    Used to run the library on explicit inputs. *)

(** Modelled from the spec: sbi/sbi_ecall_interface.h is not part of the
    sources.  The extension identifiers are the ones of the external
    interface (Base 0x10, HSM 0x48534D, Timer 0x54494D45, IPI 0x735049,
    Remote-Fence 0x52464E43), function identifiers are small sequential
    integers per extension, in the order the operations are listed.  The
    implementation id and the two structure offsets are sample values. *)
Definition opensbi_interface : sbi_ecall_interface :=
  {| SBI_EXT_BASE := 0x10;
     SBI_EXT_HSM := 0x48534D;
     SBI_EXT_TIME := 0x54494D45;
     SBI_EXT_IPI := 0x735049;
     SBI_EXT_RFENCE := 0x52464E43;
     SBI_EXT_BASE_GET_SPEC_VERSION := 0;
     SBI_EXT_BASE_GET_IMP_ID := 1;
     SBI_EXT_BASE_GET_IMP_VERSION := 2;
     SBI_EXT_BASE_PROBE_EXT := 3;
     SBI_EXT_BASE_GET_MVENDORID := 4;
     SBI_EXT_BASE_GET_MARCHID := 5;
     SBI_EXT_BASE_GET_MIMPID := 6;
     SBI_EXT_HSM_HART_START := 0;
     SBI_EXT_HSM_HART_STOP := 1;
     SBI_EXT_HSM_HART_GET_STATUS := 2;
     SBI_EXT_TIME_SET_TIMER := 0;
     SBI_EXT_IPI_SEND_IPI := 0;
     SBI_EXT_RFENCE_REMOTE_FENCE_I := 0;
     SBI_EXT_RFENCE_REMOTE_SFENCE_VMA := 1;
     SBI_EXT_RFENCE_REMOTE_SFENCE_VMA_ASID := 2;
     SBI_EXT_RFENCE_REMOTE_HFENCE_GVMA_VMID := 3;
     SBI_EXT_RFENCE_REMOTE_HFENCE_GVMA := 4;
     SBI_EXT_RFENCE_REMOTE_HFENCE_VVMA_ASID := 5;
     SBI_EXT_RFENCE_REMOTE_HFENCE_VVMA := 6;
     SBI_OPENSBI_IMPID := 1;
     SBI_SCRATCH_PLATFORM_ADDR_OFFSET := 48;
     SBI_PLATFORM_FIRMWARE_CONTEXT_OFFSET := 96 |}.

(** A small SBI runtime.  Its state is the list of the extensions it
    implements.  A call into an extension it does not implement fails with
    SBI_ERR_NOT_SUPPORTED and leaves a1 as it was; the base extension
    answers the implementation id and the probe (1 when the extension given
    in a0 is implemented, 0 when it is not); every other call succeeds with
    value 0.  It never touches memory. *)
Definition implements (exts : list Z) (ext_id : Z) : bool :=
  existsb (Z.eqb ext_id) exts.

Definition model_ecall (r : Regs) (s : gmap Z Z * list Z)
  : (Z * Z) * (gmap Z Z * list Z) :=
  if negb (implements (snd s) (a7 r)) then
    ((to_UINTN SBI_ERR_NOT_SUPPORTED, a1 r), s)
  else if (a7 r =? 0x10) && (a6 r =? 1) then ((0, 1), s)
  else if (a7 r =? 0x10) && (a6 r =? 3) then
    ((0, if implements (snd s) (a0 r) then 1 else 0), s)
  else ((0, 0), s).

(** A machine whose runtime implements the given extensions, with the word
    99 stored at address 4096 and no trap taken yet. *)
Definition machine_with (exts : list Z) : Machine (list Z) :=
  poke 4096 99 {| mem := ∅; runtime := exts; traps := [] |}.

(** Two evaluation orders a compiler may choose for the arguments of a
    call: leftmost first and rightmost first. *)
Definition left_to_right (n : nat) : list nat := seq 0 n.

Definition right_to_left (n : nat) : list nat := rev (seq 0 n).

(** A runtime with the base and timer extensions, and a legacy one with no
    extension at all. *)
Definition base_time_machine : Machine (list Z) :=
  machine_with [0x10; 0x54494D45].

Definition legacy_machine : Machine (list Z) := machine_with [].

Arguments TranslateError {RT}.
Arguments SbiCall {RT}.
Arguments trap_result {RT}.
Arguments trap_machine {RT}.
Arguments SbiCall0 {RT}.
Arguments SbiCall1 {RT}.
Arguments SbiCall2 {RT}.
Arguments SbiCall3 {RT}.
Arguments SbiCall4 {RT}.
Arguments SbiCall5 {RT}.
Arguments SbiCall6 {RT}.
Arguments SbiCallN {RT}.
Arguments SbiVendorCall {RT}.
Arguments sbi_platform_ptr itf {RT}.
Arguments SbiGetSpecVersion itf {RT}.
Arguments SbiGetImplId itf {RT}.
Arguments SbiGetImplVersion itf {RT}.
Arguments SbiProbeExtension itf {RT}.
Arguments SbiGetMvendorId itf {RT}.
Arguments SbiGetMarchId itf {RT}.
Arguments SbiGetMimpId itf {RT}.
Arguments SbiHartStart itf {RT}.
Arguments SbiHartStop itf {RT}.
Arguments SbiHartGetStatus itf {RT}.
Arguments SbiSetTimer itf {RT}.
Arguments SbiSendIpi itf {RT}.
Arguments SbiRemoteFenceI itf {RT}.
Arguments SbiRemoteSfenceVma itf {RT}.
Arguments SbiRemoteSfenceVmaAsid itf {RT}.
Arguments SbiRemoteHFenceGvmaVmid itf {RT}.
Arguments SbiRemoteHFenceGvma itf {RT}.
Arguments SbiRemoteHFenceVvmaAsid itf {RT}.
Arguments SbiRemoteHFenceVvma itf {RT}.
Arguments SbiGetMscratch itf {RT}.
Arguments SbiGetMscratchHartid itf {RT}.
Arguments SbiGetFirmwareContext itf {RT}.
Arguments SbiSetFirmwareContext itf {RT}.

(** * Properties *)

(** ** Words *)

Lemma to_UINTN_range (z : Z) : 0 <= to_UINTN z < 2 ^ XLEN.
Proof. unfold to_UINTN, XLEN. apply Z.mod_pos_bound. lia. Qed.

Lemma to_UINTN_idem (z : Z) : to_UINTN (to_UINTN z) = to_UINTN z.
Proof. unfold to_UINTN, XLEN. apply Z.mod_mod. lia. Qed.

Lemma to_UINTN_small (z : Z) : 0 <= z < 2 ^ XLEN -> to_UINTN z = z.
Proof. intros H. unfold to_UINTN. apply Z.mod_small. exact H. Qed.

(** A [long] converted back to UINTN is the word it was read from. *)
Lemma to_UINTN_to_long (z : Z) : to_UINTN (to_long z) = to_UINTN z.
Proof.
  unfold to_long. pose proof (to_UINTN_range z) as Hr.
  destruct (to_UINTN z <? 2 ^ (XLEN - 1)).
  - apply to_UINTN_idem.
  - unfold to_UINTN at 1. unfold XLEN in *.
    replace (to_UINTN z - 2 ^ 64) with (to_UINTN z + (-1) * 2 ^ 64) by lia.
    rewrite Z.mod_add by lia. apply to_UINTN_idem.
Qed.

(** [!ret.error] tests the word for zero. *)
Lemma to_long_eqb_0 (z : Z) : (to_long z =? 0) = (to_UINTN z =? 0).
Proof.
  unfold to_long. pose proof (to_UINTN_range z) as Hr. unfold XLEN in *.
  destruct (Z.ltb_spec (to_UINTN z) (2 ^ (64 - 1))) as [Hlt | Hge].
  - reflexivity.
  - change (2 ^ (64 - 1)) with 9223372036854775808 in Hge.
    change (2 ^ 64) with 18446744073709551616 in *.
    destruct (Z.eqb_spec (to_UINTN z - 18446744073709551616) 0);
      destruct (Z.eqb_spec (to_UINTN z) 0); lia || reflexivity.
Qed.

Section Properties.

Variable itf : sbi_ecall_interface.
Variable RT : Type.
Variable sbi_ecall : Regs -> gmap Z Z * RT -> (Z * Z) * (gmap Z Z * RT).
Variable va_order : nat -> list nat.

(** ** The call encoder *)

Lemma SbiCall_eq (ext_id func_id x0 x1 x2 x3 x4 x5 : Z) (m : Machine RT) :
  SbiCall sbi_ecall ext_id func_id x0 x1 x2 x3 x4 x5 m =
  (Returned (trap_result sbi_ecall
               (SbiCall_regs ext_id func_id x0 x1 x2 x3 x4 x5) m),
   trap_machine sbi_ecall (SbiCall_regs ext_id func_id x0 x1 x2 x3 x4 x5) m).
Proof.
  unfold SbiCall, trap_result, trap_machine.
  destruct (sbi_ecall _ _) as [[r0 r1] [mem' rt']]. reflexivity.
Qed.

Lemma trap_machine_traps (regs : Regs) (m : Machine RT) :
  traps (trap_machine sbi_ecall regs m) = traps m ++ [regs].
Proof.
  unfold trap_machine.
  destruct (sbi_ecall _ _) as [[r0 r1] [mem' rt']]. reflexivity.
Qed.

(** ** The error translator *)

(** TranslateError never changes the machine. *)
Lemma TranslateError_machine (SbiError : Z) (m : Machine RT) :
  snd (TranslateError SbiError m) = m.
Proof.
  unfold TranslateError.
  repeat match goal with
         | |- context [if ?b then _ else _] => destruct b
         end; reflexivity.
Qed.

Lemma TranslateError_success (m : Machine RT) :
  TranslateError 0 m = (Returned EFI_SUCCESS, m).
Proof. reflexivity. Qed.

(** C1: each of the seven status codes 0, -1, ..., -6, passed as the UINTN
    the callers convert it to, is translated to its EFI status: EFI_SUCCESS,
    EFI_DEVICE_ERROR, EFI_UNSUPPORTED, EFI_INVALID_PARAMETER,
    EFI_ACCESS_DENIED, EFI_LOAD_ERROR, EFI_ALREADY_STARTED. *)
Theorem TranslateError_defined_codes (m : Machine RT) :
  SBI_SUCCESS = 0 /\
  TranslateError (to_UINTN SBI_SUCCESS) m = (Returned EFI_SUCCESS, m) /\
  SBI_ERR_FAILED = -1 /\
  TranslateError (to_UINTN SBI_ERR_FAILED) m =
    (Returned EFI_DEVICE_ERROR, m) /\
  SBI_ERR_NOT_SUPPORTED = -2 /\
  TranslateError (to_UINTN SBI_ERR_NOT_SUPPORTED) m =
    (Returned EFI_UNSUPPORTED, m) /\
  SBI_ERR_INVALID_PARAM = -3 /\
  TranslateError (to_UINTN SBI_ERR_INVALID_PARAM) m =
    (Returned EFI_INVALID_PARAMETER, m) /\
  SBI_ERR_DENIED = -4 /\
  TranslateError (to_UINTN SBI_ERR_DENIED) m =
    (Returned EFI_ACCESS_DENIED, m) /\
  SBI_ERR_INVALID_ADDRESS = -5 /\
  TranslateError (to_UINTN SBI_ERR_INVALID_ADDRESS) m =
    (Returned EFI_LOAD_ERROR, m) /\
  SBI_ERR_ALREADY_AVAILABLE = -6 /\
  TranslateError (to_UINTN SBI_ERR_ALREADY_AVAILABLE) m =
    (Returned EFI_ALREADY_STARTED, m).
Proof. repeat split; reflexivity. Qed.

(** C3: a status word that is none of the seven defined codes makes
    TranslateError stop at its assertion; in particular it returns no EFI
    status at all for such a word. *)
Theorem TranslateError_unknown_code (SbiError : Z) (m : Machine RT) :
  ~ In SbiError (map to_UINTN sbi_status_codes) ->
  TranslateError SbiError m = (AssertionFailure, m) /\
  forall e : EFI_STATUS, fst (TranslateError SbiError m) <> Returned e.
Proof.
  intros Hout.
  assert (Hfatal : TranslateError SbiError m = (AssertionFailure, m)).
  { unfold TranslateError.
    repeat match goal with
           | |- context [?x =? ?c] =>
               destruct (Z.eqb_spec x c) as [Heq | _];
               [ exfalso; apply Hout; rewrite Heq; simpl; tauto | ]
           end.
    reflexivity. }
  split; [exact Hfatal | ].
  intros e. rewrite Hfatal. simpl. discriminate.
Qed.

(** For an argument list of length n <= 6 the SbiCall<n> macro exists; it
    loads the arguments into the first n of the slots a0..a5 and zero into
    the others, the function id into a6 and the extension id into a7, and
    takes one trap with these registers.  It returns the word the trap left
    in a0 as error; as value it returns the word that was loaded into a1
    (the second argument, or zero), whatever the trap left there. *)
Lemma SbiCallN_registers (ext_id func_id : Z) (args : list Z)
    (m : Machine RT) :
  (length args <= 6)%nat ->
  exists (call : M RT sbiret) (regs : Regs),
    SbiCallN sbi_ecall ext_id func_id args = Some call /\
    arg_slots regs =
      map to_UINTN args ++ repeat 0 (6 - length args)%nat /\
    a6 regs = to_UINTN func_id /\
    a7 regs = to_UINTN ext_id /\
    match sbi_ecall regs (mem m, runtime m) with
    | ((r0, r1), (mem', rt')) =>
        call m =
        (Returned {| error := to_long r0;
                     value := to_long (to_UINTN (nth 1 args 0)) |},
         {| mem := mem'; runtime := rt'; traps := traps m ++ [regs] |})
    end.
Proof.
  intros Hlen.
  do 7 (destruct args as [| ? args];
        [ match goal with
          | |- context [SbiCallN _ _ _ ?l] =>
              exists (SbiCall sbi_ecall ext_id func_id (nth 0 l 0) (nth 1 l 0)
                        (nth 2 l 0) (nth 3 l 0) (nth 4 l 0) (nth 5 l 0)),
                     (SbiCall_regs ext_id func_id (nth 0 l 0) (nth 1 l 0)
                        (nth 2 l 0) (nth 3 l 0) (nth 4 l 0) (nth 5 l 0))
          end;
          split; [reflexivity | ];
          split; [reflexivity | ];
          split; [reflexivity | ];
          split; [reflexivity | ];
          unfold SbiCall; simpl nth;
          destruct (sbi_ecall _ _) as [[r0 r1] [mem' rt']]; reflexivity
        | ]).
  simpl in Hlen. lia.
Qed.

(** ** The wrappers *)

Ltac sbi_call :=
  unfold Bind, SbiCall0, SbiCall1, SbiCall2, SbiCall3, SbiCall4, SbiCall5,
    SbiCall6;
  rewrite SbiCall_eq.

(** The probe issues the base-extension call with no argument: a0 is zero
    whatever [ExtensionId] is, and the value of that call is stored. *)
Lemma SbiProbeExtension_eq (ExtensionId ProbeResult : Z) (m : Machine RT) :
  SbiProbeExtension itf sbi_ecall ExtensionId ProbeResult m =
  let regs :=
    SbiCall_regs (SBI_EXT_BASE itf) (SBI_EXT_BASE_PROBE_EXT itf) 0 0 0 0 0 0 in
  (Returned tt,
   poke ProbeResult (to_UINTN (value (trap_result sbi_ecall regs m)))
     (trap_machine sbi_ecall regs m)).
Proof. unfold SbiProbeExtension. sbi_call. reflexivity. Qed.

Lemma SbiProbeExtension_ignores_ExtensionId (X Y ProbeResult : Z)
    (m : Machine RT) :
  SbiProbeExtension itf sbi_ecall X ProbeResult m =
  SbiProbeExtension itf sbi_ecall Y ProbeResult m.
Proof. rewrite !SbiProbeExtension_eq. reflexivity. Qed.

(** C4 (as amended): SbiHartGetStatus leaves its output parameter untouched
    and returns the translated error when the call fails, and stores the
    value and returns EFI_SUCCESS when it succeeds.  SbiGetSpecVersion stores
    the value exactly when the call succeeds and returns no status.
    SbiGetImplId, SbiGetImplVersion, SbiProbeExtension, SbiGetMvendorId,
    SbiGetMarchId and SbiGetMimpId return no status, and store the value
    when the call succeeds. *)
Theorem output_parameter_wrappers (HartId ExtensionId p : Z)
    (m : Machine RT) :
  let base func_id := SbiCall_regs (SBI_EXT_BASE itf) func_id 0 0 0 0 0 0 in
  let value_of regs := to_UINTN (value (trap_result sbi_ecall regs m)) in
  let failed regs := negb (error (trap_result sbi_ecall regs m) =? 0) in
  let after regs := trap_machine sbi_ecall regs m in
  let copied regs := (Returned tt, poke p (value_of regs) (after regs)) in
  (let regs := SbiCall_regs (SBI_EXT_HSM itf)
                 (SBI_EXT_HSM_HART_GET_STATUS itf) HartId 0 0 0 0 0 in
   SbiHartGetStatus itf sbi_ecall HartId p m =
   if failed regs then
     TranslateError (to_UINTN (error (trap_result sbi_ecall regs m)))
       (after regs)
   else (Returned EFI_SUCCESS, poke p (value_of regs) (after regs))) /\
  (let regs := base (SBI_EXT_BASE_GET_SPEC_VERSION itf) in
   SbiGetSpecVersion itf sbi_ecall p m =
   if failed regs then (Returned tt, after regs) else copied regs) /\
  (let regs := base (SBI_EXT_BASE_GET_IMP_ID itf) in
   fst (SbiGetImplId itf sbi_ecall p m) = Returned tt /\
   (if failed regs then True
    else SbiGetImplId itf sbi_ecall p m = copied regs)) /\
  (let regs := base (SBI_EXT_BASE_GET_IMP_VERSION itf) in
   fst (SbiGetImplVersion itf sbi_ecall p m) = Returned tt /\
   (if failed regs then True
    else SbiGetImplVersion itf sbi_ecall p m = copied regs)) /\
  (let regs := base (SBI_EXT_BASE_PROBE_EXT itf) in
   fst (SbiProbeExtension itf sbi_ecall ExtensionId p m) = Returned tt /\
   (if failed regs then True
    else SbiProbeExtension itf sbi_ecall ExtensionId p m = copied regs)) /\
  (let regs := base (SBI_EXT_BASE_GET_MVENDORID itf) in
   fst (SbiGetMvendorId itf sbi_ecall p m) = Returned tt /\
   (if failed regs then True
    else SbiGetMvendorId itf sbi_ecall p m = copied regs)) /\
  (let regs := base (SBI_EXT_BASE_GET_MARCHID itf) in
   fst (SbiGetMarchId itf sbi_ecall p m) = Returned tt /\
   (if failed regs then True
    else SbiGetMarchId itf sbi_ecall p m = copied regs)) /\
  (let regs := base (SBI_EXT_BASE_GET_MIMPID itf) in
   fst (SbiGetMimpId itf sbi_ecall p m) = Returned tt /\
   (if failed regs then True
    else SbiGetMimpId itf sbi_ecall p m = copied regs)).
Proof.
  cbv zeta.
  split.
  { unfold SbiHartGetStatus. sbi_call.
    destruct (Z.eqb_spec (error (trap_result sbi_ecall
               (SbiCall_regs (SBI_EXT_HSM itf)
                  (SBI_EXT_HSM_HART_GET_STATUS itf) HartId 0 0 0 0 0) m)) 0)
      as [E | E]; cbn [negb]; unfold store, Return.
    - rewrite E. reflexivity.
    - reflexivity. }
  split.
  { unfold SbiGetSpecVersion. sbi_call.
    destruct (_ =? 0); reflexivity. }
  repeat split;
    try match goal with
        | |- if ?b then True else _ => destruct b; [exact I | ]
        end;
    unfold SbiGetImplId, SbiGetImplVersion, SbiProbeExtension,
      SbiGetMvendorId, SbiGetMarchId, SbiGetMimpId;
    sbi_call; reflexivity.
Qed.

(** C5: the function id each hypervisor fence wrapper puts into its one
    trap.  The wrapper that takes a Vmid issues
    SBI_EXT_RFENCE_REMOTE_HFENCE_GVMA and the one without a Vmid issues
    SBI_EXT_RFENCE_REMOTE_HFENCE_GVMA_VMID; the wrapper that takes an Asid
    issues SBI_EXT_RFENCE_REMOTE_HFENCE_VVMA and the one without an Asid
    issues SBI_EXT_RFENCE_REMOTE_HFENCE_VVMA_ASID. *)
Theorem remote_hfence_function_ids
    (HartMask HartMaskBase StartAddr Size Id : Z) (m : Machine RT) :
  traps (snd (SbiRemoteHFenceGvmaVmid itf sbi_ecall
                HartMask HartMaskBase StartAddr Size Id m)) =
    traps m ++
    [SbiCall_regs (SBI_EXT_RFENCE itf) (SBI_EXT_RFENCE_REMOTE_HFENCE_GVMA itf)
       HartMask HartMaskBase StartAddr Size Id 0] /\
  traps (snd (SbiRemoteHFenceGvma itf sbi_ecall
                HartMask HartMaskBase StartAddr Size m)) =
    traps m ++
    [SbiCall_regs (SBI_EXT_RFENCE itf)
       (SBI_EXT_RFENCE_REMOTE_HFENCE_GVMA_VMID itf)
       HartMask HartMaskBase StartAddr Size 0 0] /\
  traps (snd (SbiRemoteHFenceVvmaAsid itf sbi_ecall
                HartMask HartMaskBase StartAddr Size Id m)) =
    traps m ++
    [SbiCall_regs (SBI_EXT_RFENCE itf) (SBI_EXT_RFENCE_REMOTE_HFENCE_VVMA itf)
       HartMask HartMaskBase StartAddr Size Id 0] /\
  traps (snd (SbiRemoteHFenceVvma itf sbi_ecall
                HartMask HartMaskBase StartAddr Size m)) =
    traps m ++
    [SbiCall_regs (SBI_EXT_RFENCE itf)
       (SBI_EXT_RFENCE_REMOTE_HFENCE_VVMA_ASID itf)
       HartMask HartMaskBase StartAddr Size 0 0].
Proof.
  repeat split;
    unfold SbiRemoteHFenceGvmaVmid, SbiRemoteHFenceGvma,
      SbiRemoteHFenceVvmaAsid, SbiRemoteHFenceVvma;
    sbi_call; rewrite TranslateError_machine; apply trap_machine_traps.
Qed.

(** The assertion at the head of SbiVendorCall. *)
Lemma vendor_range_check (ExtensionId : Z) :
  (0x09000000 <=? ExtensionId) && (ExtensionId <=? 0x09FFFFFF) = true <->
  0x09000000 <= ExtensionId <= 0x09FFFFFF.
Proof. rewrite andb_true_iff, !Z.leb_le. tauto. Qed.

(** C6 (as amended): with more than six arguments SbiVendorCall takes no
    trap, whatever the extension id, and returns EFI_INVALID_PARAMETER when
    the extension id is in the vendor range 0x09000000..0x09FFFFFF. *)
Theorem SbiVendorCall_too_many_args (ExtensionId FunctionId NumArgs : Z)
    (Args : list Z) (m : Machine RT) :
  6 < NumArgs ->
  snd (SbiVendorCall sbi_ecall va_order
      ExtensionId FunctionId NumArgs Args m) = m /\
  (0x09000000 <= ExtensionId <= 0x09FFFFFF ->
   SbiVendorCall sbi_ecall va_order ExtensionId FunctionId NumArgs Args m =
   (Returned EFI_INVALID_PARAMETER, m)).
Proof.
  intros Hmany.
  assert (Hswitch : forall (k0 k1 k2 k3 k4 k5 k6 d : M RT EFI_STATUS),
             match NumArgs with
             | 0 => k0 | 1 => k1 | 2 => k2 | 3 => k3
             | 4 => k4 | 5 => k5 | 6 => k6 | _ => d
             end = d).
  { intros. destruct NumArgs as [| n | n]; try lia.
    do 3 (destruct n as [n | n |]; try lia; try reflexivity). }
  unfold SbiVendorCall, Bind, ASSERT.
  destruct ((0x09000000 <=? ExtensionId) && (ExtensionId <=? 0x09FFFFFF))
    eqn:Hrange.
  - rewrite Hswitch. split; [reflexivity | intros _; reflexivity].
  - split; [reflexivity | ].
    intros Hin. apply vendor_range_check in Hin. congruence.
Qed.

(** C7: with an extension id outside 0x09000000..0x09FFFFFF SbiVendorCall
    stops at its assertion, and the machine, its list of traps included, is
    as it was: no trap is taken. *)
Theorem SbiVendorCall_outside_vendor_range (ExtensionId FunctionId NumArgs : Z)
    (Args : list Z) (m : Machine RT) :
  ~ (0x09000000 <= ExtensionId <= 0x09FFFFFF) ->
  SbiVendorCall sbi_ecall va_order ExtensionId FunctionId NumArgs Args m =
    (AssertionFailure, m) /\
  traps (snd (SbiVendorCall sbi_ecall va_order
      ExtensionId FunctionId NumArgs Args m))
    = traps m.
Proof.
  intros Hout.
  assert (Hfatal :
            SbiVendorCall sbi_ecall va_order
                ExtensionId FunctionId NumArgs Args m =
            (AssertionFailure, m)).
  { unfold SbiVendorCall, Bind, ASSERT.
    destruct ((0x09000000 <=? ExtensionId) && (ExtensionId <=? 0x09FFFFFF))
      eqn:Hrange.
    - apply vendor_range_check in Hrange. contradiction.
    - reflexivity. }
  rewrite Hfatal. split; reflexivity.
Qed.

(** C8: SbiGetMscratch, SbiGetMscratchHartid, SbiGetFirmwareContext and
    SbiSetFirmwareContext return EFI_SUCCESS whatever the firmware-extension
    call returns.  When that call fails the machine is the one the trap
    left: neither the output parameter nor the firmware_context field is
    written.  When it succeeds the value (or the context found through it)
    is stored. *)
Theorem firmware_extension_always_success
    (HartId ScratchSpace FirmwareContext : Z) (m : Machine RT) :
  let own :=
    SbiCall_regs (SBI_EDK2_FW_EXT itf) SBI_EXT_FW_MSCRATCH_FUNC 0 0 0 0 0 0 in
  let other :=
    SbiCall_regs (SBI_EDK2_FW_EXT itf) SBI_EXT_FW_MSCRATCH_HARTID_FUNC
      HartId 0 0 0 0 0 in
  let value_of regs := to_UINTN (value (trap_result sbi_ecall regs m)) in
  let failed regs := negb (error (trap_result sbi_ecall regs m) =? 0) in
  let after regs := trap_machine sbi_ecall regs m in
  let platform_of regs :=
    peek (to_UINTN (value_of regs + SBI_SCRATCH_PLATFORM_ADDR_OFFSET itf))
      (after regs) in
  SbiGetMscratch itf sbi_ecall ScratchSpace m =
    (Returned EFI_SUCCESS,
     if failed own then after own
     else poke ScratchSpace (value_of own) (after own)) /\
  SbiGetMscratchHartid itf sbi_ecall HartId ScratchSpace m =
    (Returned EFI_SUCCESS,
     if failed other then after other
     else poke ScratchSpace (value_of other) (after other)) /\
  SbiGetFirmwareContext itf sbi_ecall FirmwareContext m =
    (Returned EFI_SUCCESS,
     if failed own then after own
     else poke FirmwareContext
            (peek (firmware_context_field itf (platform_of own)) (after own))
            (after own)) /\
  SbiSetFirmwareContext itf sbi_ecall FirmwareContext m =
    (Returned EFI_SUCCESS,
     if failed own then after own
     else poke (firmware_context_field itf (platform_of own))
            (to_UINTN FirmwareContext) (after own)).
Proof.
  cbv zeta.
  repeat split;
    unfold SbiGetMscratch, SbiGetMscratchHartid, SbiGetFirmwareContext,
      SbiSetFirmwareContext;
    sbi_call; destruct (_ =? 0); reflexivity.
Qed.

(** C9 (as amended): SbiSetTimer takes one trap, the timer-arming call with
    StimeValue in a0, and returns nothing: it hands no status to its caller,
    whatever the call returned. *)
Theorem SbiSetTimer_returns_nothing (StimeValue : Z) (m : Machine RT) :
  SbiSetTimer itf sbi_ecall StimeValue m =
  (Returned tt,
   trap_machine sbi_ecall
     (SbiCall_regs (SBI_EXT_TIME itf) (SBI_EXT_TIME_SET_TIMER itf)
        StimeValue 0 0 0 0 0) m).
Proof. unfold SbiSetTimer. sbi_call. reflexivity. Qed.

End Properties.

(** * The library on the concrete platform *)

(** C2: probing the timer extension on a runtime that implements it.  Asked
    through the trap with the extension id in a0 the runtime leaves 0 in a0
    and 1 in a1; the one trap SbiProbeExtension takes has a0 = 0, and the
    word it stores in *ProbeResult is 0. *)
Theorem SbiProbeExtension_timer_probe :
  implements (runtime base_time_machine) 0x54494D45 = true /\
  fst (model_ecall (SbiCall_regs 0x10 3 0x54494D45 0 0 0 0 0)
         (mem base_time_machine, runtime base_time_machine)) = (0, 1) /\
  traps (snd (SbiProbeExtension opensbi_interface model_ecall
                0x54494D45 4096 base_time_machine)) =
    [SbiCall_regs 0x10 3 0 0 0 0 0 0] /\
  peek 4096 (snd (SbiProbeExtension opensbi_interface model_ecall
                    0x54494D45 4096 base_time_machine)) = 0.
Proof. repeat split; vm_compute; reflexivity. Qed.

(** The status word -7 is not a defined code: TranslateError stops at the
    assertion. *)
Lemma TranslateError_unknown_code_witness :
  ~ In (to_UINTN (-7)) (map to_UINTN sbi_status_codes) /\
  TranslateError (to_UINTN (-7)) legacy_machine =
    (AssertionFailure, legacy_machine).
Proof.
  assert (H : ~ In (to_UINTN (-7)) (map to_UINTN sbi_status_codes)).
  { vm_compute. intros H.
    repeat (destruct H as [H | H]; [discriminate H | ]). exact H. }
  split; [exact H | ].
  exact (proj1 (TranslateError_unknown_code (list Z) (to_UINTN (-7))
                  legacy_machine H)).
Defined.

(** C10: the implementation-id call SbiCall0 (0x10, 1) on a runtime that
    answers it.  The registers are loaded as the convention says and one
    trap is taken; the trap leaves 0 in a0 and 1 in a1, and SbiCall returns
    error 0 with value 0, the word that was loaded into a1, not the 1 the
    trap left there. *)
Theorem SbiCall0_value_not_read_back :
  arg_slots (SbiCall_regs 0x10 1 0 0 0 0 0 0) = [0; 0; 0; 0; 0; 0] /\
  a6 (SbiCall_regs 0x10 1 0 0 0 0 0 0) = 1 /\
  a7 (SbiCall_regs 0x10 1 0 0 0 0 0 0) = 0x10 /\
  fst (model_ecall (SbiCall_regs 0x10 1 0 0 0 0 0 0)
         (mem base_time_machine, runtime base_time_machine)) = (0, 1) /\
  fst (SbiCall0 model_ecall 0x10 1 base_time_machine) =
    Returned {| error := 0; value := 0 |} /\
  traps (snd (SbiCall0 model_ecall 0x10 1 base_time_machine)) =
    [SbiCall_regs 0x10 1 0 0 0 0 0 0].
Proof. repeat split; vm_compute; reflexivity. Qed.

(** The claim at SbiGetImplId on the legacy runtime: the call fails with
    SBI_ERR_NOT_SUPPORTED, and the output parameter, which held 99, does not
    keep its content. *)
Lemma SbiGetImplId_failed_call_overwrites :
  error (trap_result model_ecall (SbiCall_regs 0x10 1 0 0 0 0 0 0)
           legacy_machine) = SBI_ERR_NOT_SUPPORTED /\
  ~ (peek 4096 (snd (SbiGetImplId opensbi_interface model_ecall 4096
                       legacy_machine)) =
     peek 4096 legacy_machine).
Proof.
  split.
  - vm_compute. reflexivity.
  - vm_compute. discriminate.
Qed.

(** Seven arguments and extension id 0: the assertion fails first, the result
    is not EFI_INVALID_PARAMETER. *)
Lemma vendor_call_seven_args_extension_zero :
  ~ (6 < 7 ->
     fst (SbiVendorCall model_ecall right_to_left 0 0 7 [] legacy_machine) =
     Returned EFI_INVALID_PARAMETER).
Proof.
  intros H. specialize (H ltac:(lia)). vm_compute in H. discriminate H.
Qed.

(** Seven arguments and a vendor extension id. *)
Lemma SbiVendorCall_too_many_args_witness :
  6 < 7 /\
  0x09000000 <= 0x09000001 <= 0x09FFFFFF /\
  snd (SbiVendorCall model_ecall right_to_left
      0x09000001 0 7 [] legacy_machine) =
    legacy_machine /\
  SbiVendorCall model_ecall right_to_left 0x09000001 0 7 [] legacy_machine =
    (Returned EFI_INVALID_PARAMETER, legacy_machine).
Proof.
  assert (H : 6 < 7) by lia.
  assert (R : 0x09000000 <= 0x09000001 <= 0x09FFFFFF) by lia.
  split; [exact H | ]. split; [exact R | ].
  split.
  - exact (proj1 (SbiVendorCall_too_many_args (list Z) model_ecall
                    right_to_left
                    0x09000001 0 7 [] legacy_machine H)).
  - exact (proj2 (SbiVendorCall_too_many_args (list Z) model_ecall
                    right_to_left
                    0x09000001 0 7 [] legacy_machine H) R).
Defined.

(** Extension id 0x0A000001, one above the vendor range, with one argument. *)
Lemma SbiVendorCall_outside_vendor_range_witness :
  ~ (0x09000000 <= 0x0A000001 <= 0x09FFFFFF) /\
  SbiVendorCall model_ecall right_to_left 0x0A000001 0 1 [5] legacy_machine =
    (AssertionFailure, legacy_machine) /\
  traps (snd (SbiVendorCall model_ecall right_to_left
      0x0A000001 0 1 [5] legacy_machine))
    = traps legacy_machine.
Proof.
  assert (H : ~ (0x09000000 <= 0x0A000001 <= 0x09FFFFFF)) by lia.
  split; [exact H | ].
  exact (SbiVendorCall_outside_vendor_range (list Z) model_ecall
           right_to_left
           0x0A000001 0 1 [5] legacy_machine H).
Defined.

(** Arming the timer on the legacy runtime fails with SBI_ERR_NOT_SUPPORTED,
    on the runtime with the timer extension it succeeds; nothing computed
    from what SbiSetTimer returns tells the two apart. *)
Lemma SbiSetTimer_status_not_reported :
  error (trap_result model_ecall
           (SbiCall_regs 0x54494D45 0 1000 0 0 0 0 0) legacy_machine) =
    SBI_ERR_NOT_SUPPORTED /\
  error (trap_result model_ecall
           (SbiCall_regs 0x54494D45 0 1000 0 0 0 0 0) base_time_machine) =
    SBI_SUCCESS /\
  ~ exists report : outcome unit -> EFI_STATUS,
      report (fst (SbiSetTimer opensbi_interface model_ecall 1000
                     legacy_machine)) = EFI_UNSUPPORTED /\
      report (fst (SbiSetTimer opensbi_interface model_ecall 1000
                     base_time_machine)) = EFI_SUCCESS.
Proof.
  split; [vm_compute; reflexivity | ].
  split; [vm_compute; reflexivity | ].
  intros [report [Hfail Hok]].
  assert (E1 : fst (SbiSetTimer opensbi_interface model_ecall 1000
                      legacy_machine) = Returned tt)
    by (vm_compute; reflexivity).
  assert (E2 : fst (SbiSetTimer opensbi_interface model_ecall 1000
                      base_time_machine) = Returned tt)
    by (vm_compute; reflexivity).
  rewrite E1 in Hfail. rewrite E2 in Hok. congruence.
Qed.

(** * Further properties of the library *)

(** ** Words and memory *)

Lemma to_long_range (z : Z) : - 2 ^ (XLEN - 1) <= to_long z < 2 ^ (XLEN - 1).
Proof.
  unfold to_long. pose proof (to_UINTN_range z) as Hr. unfold XLEN in *.
  change (2 ^ (64 - 1)) with 9223372036854775808.
  change (2 ^ 64) with 18446744073709551616 in *.
  destruct (Z.ltb_spec (to_UINTN z) 9223372036854775808); lia.
Qed.

(** A value of type [long] survives the trip through a register. *)
Lemma to_long_to_UINTN (s : Z) :
  - 2 ^ (XLEN - 1) <= s < 2 ^ (XLEN - 1) -> to_long (to_UINTN s) = s.
Proof.
  unfold XLEN. change (2 ^ (64 - 1)) with 9223372036854775808. intros Hs.
  unfold to_long. rewrite to_UINTN_idem. unfold to_UINTN, XLEN.
  change (2 ^ (64 - 1)) with 9223372036854775808.
  change (2 ^ 64) with 18446744073709551616.
  destruct (Z_lt_le_dec s 0) as [Hneg | Hpos].
  - replace (s mod 18446744073709551616) with (s + 18446744073709551616).
    + destruct (Z.ltb_spec (s + 18446744073709551616) 9223372036854775808);
        lia.
    + apply Z.mod_unique with (q := -1); lia.
  - rewrite Z.mod_small by lia.
    destruct (Z.ltb_spec s 9223372036854775808); lia.
Qed.

(** Two addresses less than 2^XLEN apart are different. *)
Lemma to_UINTN_offset_ne (p d : Z) :
  0 < d < 2 ^ XLEN -> to_UINTN (p + d) <> to_UINTN p.
Proof.
  unfold to_UINTN. intros Hd Heq.
  assert (Hz : d mod 2 ^ XLEN = 0).
  { replace d with ((p + d) - p) at 1 by lia.
    rewrite Zminus_mod, Heq, Z.sub_diag. reflexivity. }
  rewrite Z.mod_small in Hz by lia. lia.
Qed.

Lemma le_split_length (n : nat) (v : Z) : length (le_split n v) = n.
Proof.
  revert v. induction n as [| n IH]; intros v; simpl;
    [reflexivity | rewrite IH; reflexivity].
Qed.

Lemma le_combine_split (n : nat) (v : Z) :
  0 <= v < 256 ^ Z.of_nat n -> le_combine (le_split n v) = v.
Proof.
  revert v. induction n as [| n IH]; intros v Hv.
  - simpl in *. lia.
  - rewrite Nat2Z.inj_succ, Z.pow_succ_r in Hv by lia.
    simpl. rewrite IH.
    + pose proof (Z.div_mod v 256). lia.
    + split; [apply Z.div_pos; lia | apply Z.div_lt_upper_bound; lia].
Qed.

Lemma load_bytes_insert_outside (q : Z) (n : nat) (a b : Z)
    (mm : gmap Z Z) :
  (forall i, 0 <= i < Z.of_nat n -> to_UINTN (q + i) <> a) ->
  load_bytes q n (<[a := b]> mm) = load_bytes q n mm.
Proof.
  revert q. induction n as [| n IH]; intros q Hout; [reflexivity | ].
  simpl. f_equal.
  - rewrite lookup_insert_ne; [reflexivity | ].
    intros Heq. apply (Hout 0); [lia | ]. rewrite Z.add_0_r. congruence.
  - apply IH. intros i Hi.
    replace (q + 1 + i) with (q + (1 + i)) by lia. apply Hout. lia.
Qed.

Lemma load_store_same (p : Z) (bs : list Z) (mm : gmap Z Z) :
  Z.of_nat (length bs) <= 2 ^ XLEN ->
  load_bytes p (length bs) (store_bytes p bs mm) = bs.
Proof.
  revert p. induction bs as [| b bs IH]; intros p Hlen; [reflexivity | ].
  simpl length in Hlen. rewrite Nat2Z.inj_succ in Hlen.
  simpl. rewrite lookup_insert_eq. simpl. f_equal.
  rewrite load_bytes_insert_outside.
  - apply IH. lia.
  - intros i Hi. replace (p + 1 + i) with (p + (1 + i)) by lia.
    apply to_UINTN_offset_ne. lia.
Qed.


(** A word written through a pointer is read back through it. *)
Lemma peek_poke_eq {RT : Type} (p v : Z) (m : Machine RT) :
  0 <= v < 2 ^ XLEN -> peek p (poke p v m) = v.
Proof.
  intros Hv. unfold peek, poke. cbn [mem].
  pose proof (load_store_same p (le_split 8 v) (mem m)) as Hload.
  rewrite le_split_length in Hload.
  rewrite Hload by (unfold XLEN; lia).
  apply le_combine_split. exact Hv.
Qed.


(** ** The order of evaluation of the VA_ARG arguments *)

Lemma rank_lookup (p : nat) (order : list nat) (k : nat) :
  rank p order = Some k -> order !! k = Some p.
Proof.
  revert k. induction order as [| q rest IH]; intros k; simpl.
  - discriminate.
  - destruct (Nat.eqb_spec p q) as [-> | Hne].
    + intros [= <-]. reflexivity.
    + destruct (rank p rest) as [k' |]; simpl; [ | discriminate].
      intros [= <-]. simpl. apply IH. reflexivity.
Qed.

Lemma rank_elem_of (p : nat) (order : list nat) :
  p ∈ order -> is_Some (rank p order).
Proof.
  induction order as [| q rest IH]; intros Hin.
  - apply not_elem_of_nil in Hin. contradiction.
  - simpl. destruct (Nat.eqb_spec p q) as [-> | Hne]; [eauto | ].
    apply elem_of_cons in Hin. destruct Hin as [-> | Hin]; [congruence | ].
    destruct (IH Hin) as [k ->]. simpl. eauto.
Qed.

Lemma rank_NoDup (p : nat) (order : list nat) (k : nat) :
  NoDup order -> order !! k = Some p -> rank p order = Some k.
Proof.
  revert k. induction order as [| q rest IH]; intros k Hnd Hk.
  - discriminate.
  - apply NoDup_cons in Hnd. destruct Hnd as [Hq Hnd].
    destruct k as [| k]; simpl in *.
    + injection Hk as ->. rewrite Nat.eqb_refl. reflexivity.
    + destruct (Nat.eqb_spec p q) as [-> | Hne].
      * exfalso. apply Hq. eapply list_elem_of_lookup_2. exact Hk.
      * rewrite (IH k Hnd Hk). reflexivity.
Qed.

(** When [order] is an order of the positions 0 .. n-1 and n variable
    arguments were passed, every VA_ARG has a value, and the position
    evaluated k-th holds the k-th variable argument. *)
Lemma VA_ARGS_permutation (order : list nat) (Args : list Z) (n : nat) :
  Permutation order (seq 0 n) ->
  (n <= length Args)%nat ->
  exists vs : list Z,
    VA_ARGS order Args n = Some vs /\
    length vs = n /\
    forall k p : nat, order !! k = Some p -> vs !! p = Args !! k.
Proof.
  intros Hperm Hlen.
  assert (Hnd : NoDup order).
  { rewrite Hperm. apply NoDup_seq. }
  assert (Hsize : length order = n).
  { rewrite Hperm. apply length_seq. }
  assert (Hvalue : forall p, p ∈ seq 0 n ->
            exists k, rank p order = Some k /\ (k < n)%nat).
  { intros p Hp. rewrite <- Hperm in Hp.
    destruct (rank_elem_of p order Hp) as [k Hk]. exists k.
    split; [exact Hk | ].
    apply rank_lookup in Hk. apply lookup_lt_Some in Hk. lia. }
  assert (Hsome : is_Some (VA_ARGS order Args n)).
  { unfold VA_ARGS. apply mapM_is_Some_2. apply Forall_forall.
    intros p Hp. destruct (Hvalue p Hp) as (k & Hk & Hlt).
    unfold compose, VA_ARG. rewrite Hk.
    apply lookup_lt_is_Some_2. lia. }
  destruct Hsome as [vs Hvs]. exists vs.
  split; [exact Hvs | ].
  unfold VA_ARGS in Hvs. apply mapM_Some_1 in Hvs.
  split.
  - apply Forall2_length in Hvs. rewrite length_seq in Hvs. lia.
  - intros k p Hk.
    assert (Hp : p ∈ seq 0 n).
    { rewrite <- Hperm. eapply list_elem_of_lookup_2. exact Hk. }
    apply elem_of_seq in Hp.
    assert (Hseq : seq 0 n !! p = Some p).
    { rewrite lookup_seq_lt by lia. reflexivity. }
    destruct (Forall2_lookup_l _ _ _ _ _ Hvs Hseq) as (y & Hy & Hval).
    unfold VA_ARG in Hval. rewrite (rank_NoDup p order k Hnd Hk) in Hval.
    congruence.
Qed.


Ltac translate_cases :=
  unfold TranslateError, SBI_SUCCESS, SBI_ERR_FAILED, SBI_ERR_NOT_SUPPORTED,
    SBI_ERR_INVALID_PARAM, SBI_ERR_DENIED, SBI_ERR_INVALID_ADDRESS,
    SBI_ERR_ALREADY_AVAILABLE in *;
  repeat match goal with
         | H : context [?x =? ?c] |- _ => destruct (Z.eqb_spec x c)
         | |- context [?x =? ?c] => destruct (Z.eqb_spec x c)
         end.

Section MoreProperties.

Variable itf : sbi_ecall_interface.
Variable RT : Type.
Variable sbi_ecall : Regs -> gmap Z Z * RT -> (Z * Z) * (gmap Z Z * RT).
Variable va_order : nat -> list nat.

(** ** The error translator *)

(** X1: TranslateError returns EFI_SUCCESS for the status word 0 and for no
    other word: a failure is never reported as success. *)
Theorem TranslateError_success_iff (SbiError : Z) (m : Machine RT) :
  fst (TranslateError SbiError m) = Returned EFI_SUCCESS <-> SbiError = 0.
Proof.
  split.
  - intros H. translate_cases; simpl in H;
      first [assumption | discriminate H].
  - intros ->. reflexivity.
Qed.

(** X2: the translation keeps the seven codes apart: two status words for
    which TranslateError returns the same EFI status are the same word. *)
Theorem TranslateError_injective (w1 w2 : Z) (e : EFI_STATUS)
    (m1 m2 : Machine RT) :
  fst (TranslateError w1 m1) = Returned e ->
  fst (TranslateError w2 m2) = Returned e ->
  w1 = w2.
Proof.
  intros H1 H2.
  translate_cases; simpl in H1, H2;
    first [congruence | discriminate H1 | discriminate H2].
Qed.

(** ** The call encoder *)

(** X3: both fields of the struct sbiret SbiCall returns are in the range of
    [long]; converting error back to UINTN gives the word the trap left in
    a0, converting value back gives the word that was loaded into a1 (the
    second argument), whatever the trap left in a1; the registers loaded
    for the trap are all XLEN-bit words, and one trap was taken. *)
Theorem SbiCall_result_words
    (ext_id func_id x0 x1 x2 x3 x4 x5 : Z) (m m' : Machine RT) (ret : sbiret) :
  SbiCall sbi_ecall ext_id func_id x0 x1 x2 x3 x4 x5 m = (Returned ret, m') ->
  let regs := SbiCall_regs ext_id func_id x0 x1 x2 x3 x4 x5 in
  let after := sbi_ecall regs (mem m, runtime m) in
  (- 2 ^ 63 <= error ret < 2 ^ 63) /\
  (- 2 ^ 63 <= value ret < 2 ^ 63) /\
  to_UINTN (error ret) = to_UINTN (fst (fst after)) /\
  to_UINTN (value ret) = to_UINTN x1 /\
  Forall (fun w => 0 <= w < 2 ^ 64) (arg_slots regs ++ [a6 regs; a7 regs]) /\
  traps m' = traps m ++ [regs].
Proof.
  intros Hcall. cbv zeta. unfold SbiCall in Hcall.
  destruct (sbi_ecall _ _) as [[r0 r1] [mem' rt']].
  injection Hcall as <- <-. simpl.
  repeat split; try apply to_long_range; try apply to_UINTN_to_long.
  - rewrite to_UINTN_to_long. apply to_UINTN_idem.
  - repeat constructor; apply to_UINTN_range.
Qed.

(** ** The wrappers that return the translated status *)

Lemma trap_result_words (regs : Regs) (m : Machine RT) :
  to_UINTN (error (trap_result sbi_ecall regs m)) =
    to_UINTN (fst (fst (sbi_ecall regs (mem m, runtime m)))) /\
  to_UINTN (value (trap_result sbi_ecall regs m)) = to_UINTN (a1 regs) /\
  (error (trap_result sbi_ecall regs m) =? 0) =
    (to_UINTN (fst (fst (sbi_ecall regs (mem m, runtime m)))) =? 0).
Proof.
  unfold trap_result.
  destruct (sbi_ecall _ _) as [[r0 r1] [mem' rt']]. simpl.
  split; [apply to_UINTN_to_long | ].
  split; [apply to_UINTN_to_long | apply to_long_eqb_0].
Qed.

Ltac sbi_call_words :=
  unfold Bind, SbiCall0, SbiCall1, SbiCall2, SbiCall3, SbiCall4, SbiCall5,
    SbiCall6;
  rewrite SbiCall_eq;
  repeat match goal with
         | |- context [to_UINTN (error (trap_result sbi_ecall ?r ?m))] =>
             rewrite (proj1 (trap_result_words r m))
         | |- context [to_UINTN (value (trap_result sbi_ecall ?r ?m))] =>
             rewrite (proj1 (proj2 (trap_result_words r m)))
         | |- context [error (trap_result sbi_ecall ?r ?m) =? 0] =>
             rewrite (proj2 (proj2 (trap_result_words r m)))
         end.

(** X4: the hart, IPI and (non-hypervisor) fence wrappers.  Each takes one
    trap with its extension id in a7, its function id in a6 and its
    parameters from a0 on in declaration order, writes nothing itself, and
    returns the translation of the word the trap left in a0; a word that is
    no defined code stops it at the assertion after the trap was taken. *)
Theorem status_wrappers_one_trap
    (HartId StartAddr Priv HartMask HartMaskBase Size Asid : Z)
    (m : Machine RT) :
  let status regs :=
    TranslateError (to_UINTN (fst (fst (sbi_ecall regs (mem m, runtime m)))))
      (trap_machine sbi_ecall regs m) in
  SbiHartStart itf sbi_ecall HartId StartAddr Priv m =
    status (SbiCall_regs (SBI_EXT_HSM itf) (SBI_EXT_HSM_HART_START itf)
              HartId StartAddr Priv 0 0 0) /\
  SbiHartStop itf sbi_ecall m =
    status (SbiCall_regs (SBI_EXT_HSM itf) (SBI_EXT_HSM_HART_STOP itf)
              0 0 0 0 0 0) /\
  SbiSendIpi itf sbi_ecall HartMask HartMaskBase m =
    status (SbiCall_regs (SBI_EXT_IPI itf) (SBI_EXT_IPI_SEND_IPI itf)
              HartMask HartMaskBase 0 0 0 0) /\
  SbiRemoteFenceI itf sbi_ecall HartMask HartMaskBase m =
    status (SbiCall_regs (SBI_EXT_RFENCE itf)
              (SBI_EXT_RFENCE_REMOTE_FENCE_I itf)
              HartMask HartMaskBase 0 0 0 0) /\
  SbiRemoteSfenceVma itf sbi_ecall HartMask HartMaskBase StartAddr Size m =
    status (SbiCall_regs (SBI_EXT_RFENCE itf)
              (SBI_EXT_RFENCE_REMOTE_SFENCE_VMA itf)
              HartMask HartMaskBase StartAddr Size 0 0) /\
  SbiRemoteSfenceVmaAsid itf sbi_ecall HartMask HartMaskBase StartAddr Size
      Asid m =
    status (SbiCall_regs (SBI_EXT_RFENCE itf)
              (SBI_EXT_RFENCE_REMOTE_SFENCE_VMA_ASID itf)
              HartMask HartMaskBase StartAddr Size Asid 0).
Proof.
  cbv zeta.
  repeat split;
    unfold SbiHartStart, SbiHartStop, SbiSendIpi, SbiRemoteFenceI,
      SbiRemoteSfenceVma, SbiRemoteSfenceVmaAsid;
    sbi_call_words; reflexivity.
Qed.

Lemma TranslateError_success_word (w : Z) (m : Machine RT) :
  fst (TranslateError (to_UINTN w) m) = Returned EFI_SUCCESS <->
  to_UINTN w = 0.
Proof.
  split.
  - intros H. translate_cases; simpl in H;
      first [assumption | discriminate H].
  - intros ->. reflexivity.
Qed.

(** X5: every wrapper that returns the translated status returns
    EFI_SUCCESS exactly when the trap left the word 0 in a0. *)
Theorem status_wrappers_success_iff
    (HartId StartAddr Priv HartStatus HartMask HartMaskBase Size Id : Z)
    (m : Machine RT) :
  let succeeded ext_id func_id x0 x1 x2 x3 x4 :=
    to_UINTN (fst (fst (sbi_ecall
                          (SbiCall_regs ext_id func_id x0 x1 x2 x3 x4 0)
                          (mem m, runtime m)))) = 0 in
  let rfence := SBI_EXT_RFENCE itf in
  (fst (SbiHartStart itf sbi_ecall HartId StartAddr Priv m)
     = Returned EFI_SUCCESS <->
   succeeded (SBI_EXT_HSM itf) (SBI_EXT_HSM_HART_START itf)
     HartId StartAddr Priv 0 0) /\
  (fst (SbiHartStop itf sbi_ecall m) = Returned EFI_SUCCESS <->
   succeeded (SBI_EXT_HSM itf) (SBI_EXT_HSM_HART_STOP itf) 0 0 0 0 0) /\
  (fst (SbiHartGetStatus itf sbi_ecall HartId HartStatus m)
     = Returned EFI_SUCCESS <->
   succeeded (SBI_EXT_HSM itf) (SBI_EXT_HSM_HART_GET_STATUS itf)
     HartId 0 0 0 0) /\
  (fst (SbiSendIpi itf sbi_ecall HartMask HartMaskBase m)
     = Returned EFI_SUCCESS <->
   succeeded (SBI_EXT_IPI itf) (SBI_EXT_IPI_SEND_IPI itf)
     HartMask HartMaskBase 0 0 0) /\
  (fst (SbiRemoteFenceI itf sbi_ecall HartMask HartMaskBase m)
     = Returned EFI_SUCCESS <->
   succeeded rfence (SBI_EXT_RFENCE_REMOTE_FENCE_I itf)
     HartMask HartMaskBase 0 0 0) /\
  (fst (SbiRemoteSfenceVma itf sbi_ecall HartMask HartMaskBase StartAddr
          Size m) = Returned EFI_SUCCESS <->
   succeeded rfence (SBI_EXT_RFENCE_REMOTE_SFENCE_VMA itf)
     HartMask HartMaskBase StartAddr Size 0) /\
  (fst (SbiRemoteSfenceVmaAsid itf sbi_ecall HartMask HartMaskBase StartAddr
          Size Id m) = Returned EFI_SUCCESS <->
   succeeded rfence (SBI_EXT_RFENCE_REMOTE_SFENCE_VMA_ASID itf)
     HartMask HartMaskBase StartAddr Size Id) /\
  (fst (SbiRemoteHFenceGvmaVmid itf sbi_ecall HartMask HartMaskBase
          StartAddr Size Id m) = Returned EFI_SUCCESS <->
   succeeded rfence (SBI_EXT_RFENCE_REMOTE_HFENCE_GVMA itf)
     HartMask HartMaskBase StartAddr Size Id) /\
  (fst (SbiRemoteHFenceGvma itf sbi_ecall HartMask HartMaskBase StartAddr
          Size m) = Returned EFI_SUCCESS <->
   succeeded rfence (SBI_EXT_RFENCE_REMOTE_HFENCE_GVMA_VMID itf)
     HartMask HartMaskBase StartAddr Size 0) /\
  (fst (SbiRemoteHFenceVvmaAsid itf sbi_ecall HartMask HartMaskBase
          StartAddr Size Id m) = Returned EFI_SUCCESS <->
   succeeded rfence (SBI_EXT_RFENCE_REMOTE_HFENCE_VVMA itf)
     HartMask HartMaskBase StartAddr Size Id) /\
  (fst (SbiRemoteHFenceVvma itf sbi_ecall HartMask HartMaskBase StartAddr
          Size m) = Returned EFI_SUCCESS <->
   succeeded rfence (SBI_EXT_RFENCE_REMOTE_HFENCE_VVMA_ASID itf)
     HartMask HartMaskBase StartAddr Size 0).
Proof.
  cbv zeta.
  repeat apply conj;
    unfold SbiHartStart, SbiHartStop, SbiHartGetStatus, SbiSendIpi,
      SbiRemoteFenceI, SbiRemoteSfenceVma, SbiRemoteSfenceVmaAsid,
      SbiRemoteHFenceGvmaVmid, SbiRemoteHFenceGvma, SbiRemoteHFenceVvmaAsid,
      SbiRemoteHFenceVvma;
    sbi_call_words;
    try (destruct (_ =? 0); unfold store, Return);
    apply TranslateError_success_word.
Qed.

(** X6: SbiGetImplId, SbiGetImplVersion, SbiProbeExtension, SbiGetMvendorId,
    SbiGetMarchId and SbiGetMimpId take one base-extension trap with zero in
    every argument register and store ret.value in the output parameter
    whatever the trap left in a0.  Since ret.value is the a1 operand of
    SbiCall0, the word stored is 0 whatever the trap left in a1, and the
    output parameter then reads 0; nothing else is written.
    SbiGetSpecVersion does the same only when a0 is 0 and otherwise leaves
    the machine as the trap left it. *)
Theorem base_wrappers_store_a1_operand (ExtensionId p : Z) (m : Machine RT) :
  let base func_id := SbiCall_regs (SBI_EXT_BASE itf) func_id 0 0 0 0 0 0 in
  let a0_after regs := fst (fst (sbi_ecall regs (mem m, runtime m))) in
  let stored regs :=
    (Returned tt, poke p 0 (trap_machine sbi_ecall regs m)) in
  SbiGetImplId itf sbi_ecall p m =
    stored (base (SBI_EXT_BASE_GET_IMP_ID itf)) /\
  SbiGetImplVersion itf sbi_ecall p m =
    stored (base (SBI_EXT_BASE_GET_IMP_VERSION itf)) /\
  SbiProbeExtension itf sbi_ecall ExtensionId p m =
    stored (base (SBI_EXT_BASE_PROBE_EXT itf)) /\
  SbiGetMvendorId itf sbi_ecall p m =
    stored (base (SBI_EXT_BASE_GET_MVENDORID itf)) /\
  SbiGetMarchId itf sbi_ecall p m =
    stored (base (SBI_EXT_BASE_GET_MARCHID itf)) /\
  SbiGetMimpId itf sbi_ecall p m =
    stored (base (SBI_EXT_BASE_GET_MIMPID itf)) /\
  SbiGetSpecVersion itf sbi_ecall p m =
    (let regs := base (SBI_EXT_BASE_GET_SPEC_VERSION itf) in
     if to_UINTN (a0_after regs) =? 0 then stored regs
     else (Returned tt, trap_machine sbi_ecall regs m)) /\
  peek p (snd (SbiGetImplId itf sbi_ecall p m)) = 0.
Proof.
  cbv zeta.
  assert (Himpl :
    SbiGetImplId itf sbi_ecall p m =
    (Returned tt,
     poke p 0
       (trap_machine sbi_ecall
          (SbiCall_regs (SBI_EXT_BASE itf) (SBI_EXT_BASE_GET_IMP_ID itf)
             0 0 0 0 0 0) m))).
  { unfold SbiGetImplId. sbi_call_words. reflexivity. }
  repeat apply conj;
    try exact Himpl;
    try (unfold SbiGetImplVersion, SbiProbeExtension, SbiGetMvendorId,
           SbiGetMarchId, SbiGetMimpId, SbiGetSpecVersion;
         sbi_call_words; try destruct (_ =? 0); reflexivity).
  rewrite Himpl. cbn [snd]. apply peek_poke_eq. unfold XLEN. lia.
Qed.

(** ** The vendor extension *)

Lemma call_then_translate (ext_id func_id x0 x1 x2 x3 x4 x5 : Z)
    (m : Machine RT) :
  (ret <- SbiCall sbi_ecall ext_id func_id x0 x1 x2 x3 x4 x5 ;;
   TranslateError (to_UINTN (error ret))) m =
  TranslateError
    (to_UINTN (fst (fst (sbi_ecall
                           (SbiCall_regs ext_id func_id x0 x1 x2 x3 x4 x5)
                           (mem m, runtime m)))))
    (trap_machine sbi_ecall
       (SbiCall_regs ext_id func_id x0 x1 x2 x3 x4 x5) m).
Proof. sbi_call_words. reflexivity. Qed.

(** X7: with a vendor extension id, n <= 6, at least n variable arguments
    and an evaluation order that is an order of the n argument positions,
    SbiVendorCall takes one trap with FunctionId in a6, ExtensionId in a7,
    zero in the argument registers from the n-th on, and in the first n the
    first n variable arguments: the argument position evaluated k-th holds
    the k-th of them.  It returns the translation of the word left in a0;
    arguments after the first n are not looked at. *)
Theorem SbiVendorCall_forwards (ExtensionId FunctionId : Z) (n : nat)
    (Args : list Z) (m : Machine RT) :
  0x09000000 <= ExtensionId <= 0x09FFFFFF ->
  (n <= 6)%nat ->
  (n <= length Args)%nat ->
  Permutation (va_order n) (seq 0 n) ->
  exists (regs : Regs) (vs : list Z),
    length vs = n /\
    (forall k p : nat, va_order n !! k = Some p -> vs !! p = Args !! k) /\
    arg_slots regs = map to_UINTN vs ++ repeat 0 (6 - n)%nat /\
    a6 regs = to_UINTN FunctionId /\
    a7 regs = ExtensionId /\
    SbiVendorCall sbi_ecall va_order ExtensionId FunctionId (Z.of_nat n)
      Args m =
    TranslateError
      (to_UINTN (fst (fst (sbi_ecall regs (mem m, runtime m)))))
      (trap_machine sbi_ecall regs m).
Proof.
  intros Hrange Hn Hlen Hperm.
  assert (Hext : to_UINTN ExtensionId = ExtensionId).
  { apply to_UINTN_small. unfold XLEN. lia. }
  assert (Hcheck :
            (0x09000000 <=? ExtensionId) && (ExtensionId <=? 0x09FFFFFF)
            = true).
  { rewrite andb_true_iff, !Z.leb_le. exact Hrange. }
  unfold SbiVendorCall. unfold Bind at 1. unfold ASSERT. rewrite Hcheck.
  destruct n as [| [| n]].
  - (* no argument *)
    apply Permutation_nil_r in Hperm.
    change (Z.of_nat 0) with 0. cbv iota beta.
    unfold SbiCall0. rewrite call_then_translate.
    match goal with
    | |- context [trap_machine sbi_ecall ?r m] => exists r
    end;
    exists []. split; [reflexivity | ].
    split; [intros k p Hk; rewrite Hperm in Hk; discriminate Hk | ].
    split; [reflexivity | ]. split; [reflexivity | ].
    split; [exact Hext | reflexivity].
  - (* one argument: nothing to order *)
    apply Permutation_singleton_r in Hperm.
    destruct Args as [| x0 Args]; [simpl in Hlen; lia | ].
    change (Z.of_nat 1) with 1. cbv iota beta.
    unfold SbiCall1. rewrite call_then_translate.
    match goal with
    | |- context [trap_machine sbi_ecall ?r m] => exists r
    end;
    exists [x0]. split; [reflexivity | ].
    split.
    { intros k p Hk. rewrite Hperm in Hk.
      destruct k as [| k]; [ | destruct k; discriminate Hk].
      injection Hk as <-. reflexivity. }
    split; [reflexivity | ]. split; [reflexivity | ].
    split; [exact Hext | reflexivity].
  - (* two to six arguments *)
    destruct (VA_ARGS_permutation (va_order (S (S n))) Args (S (S n))
                Hperm Hlen) as (vs & Hvs & Hsize & Hplace).
    destruct n as [| [| [| [| [| n]]]]]; [ .. | lia];
      match goal with
      | |- context [Z.of_nat ?k] =>
          let z := eval compute in (Z.of_nat k) in
          change (Z.of_nat k) with z
      end;
      cbv iota beta; rewrite Hvs;
      repeat (destruct vs as [| ? vs]; [discriminate Hsize | ]);
      (destruct vs; [ | discriminate Hsize]);
      unfold SbiCall2, SbiCall3, SbiCall4, SbiCall5, SbiCall6;
      rewrite call_then_translate;
      match goal with
      | |- context [trap_machine sbi_ecall ?r m] => exists r
      end;
      eexists;
      (split; [exact Hsize | ]);
      (split; [exact Hplace | ]);
      (split; [reflexivity | ]);
      (split; [reflexivity | ]);
      (split; [exact Hext | reflexivity]).
Qed.

(** X8: whatever its arguments, SbiVendorCall takes at most one trap, and a
    trap it takes carries ExtensionId in a7, inside the vendor range, and
    FunctionId in a6: it never calls into an extension outside
    0x09000000..0x09FFFFFF. *)
Theorem SbiVendorCall_traps_in_vendor_range
    (ExtensionId FunctionId NumArgs : Z) (Args : list Z) (m : Machine RT)
    (r : Regs) :
  In r (traps (snd (SbiVendorCall sbi_ecall va_order
      ExtensionId FunctionId NumArgs
                      Args m))) ->
  In r (traps m) \/
  (traps (snd (SbiVendorCall sbi_ecall va_order ExtensionId FunctionId NumArgs
                 Args m)) = traps m ++ [r] /\
   a7 r = ExtensionId /\
   0x09000000 <= a7 r <= 0x09FFFFFF /\
   a6 r = to_UINTN FunctionId).
Proof.
  unfold SbiVendorCall. unfold Bind at 1. unfold ASSERT.
  destruct ((0x09000000 <=? ExtensionId) && (ExtensionId <=? 0x09FFFFFF))
    eqn:Hcheck; [ | simpl; tauto].
  apply andb_true_iff in Hcheck. rewrite !Z.leb_le in Hcheck.
  assert (Hext : to_UINTN ExtensionId = ExtensionId).
  { apply to_UINTN_small. unfold XLEN. lia. }
  assert (Hcall : forall x0 x1 x2 x3 x4 x5,
    In r (traps (snd ((ret <- SbiCall sbi_ecall ExtensionId FunctionId
                                x0 x1 x2 x3 x4 x5 ;;
                       TranslateError (to_UINTN (error ret))) m))) ->
    In r (traps m) \/
    (traps (snd ((ret <- SbiCall sbi_ecall ExtensionId FunctionId
                            x0 x1 x2 x3 x4 x5 ;;
                   TranslateError (to_UINTN (error ret))) m))
       = traps m ++ [r] /\
     a7 r = ExtensionId /\
     0x09000000 <= a7 r <= 0x09FFFFFF /\
     a6 r = to_UINTN FunctionId)).
  { intros x0 x1 x2 x3 x4 x5.
    rewrite call_then_translate, TranslateError_machine, trap_machine_traps.
    intros Hin. apply in_app_or in Hin. destruct Hin as [Hold | Hnew].
    - left. exact Hold.
    - right. destruct Hnew as [<- | []]. simpl. rewrite Hext.
      repeat split; lia. }
  destruct NumArgs as [| p | p];
    [ | do 3 (try destruct p as [p | p |]) | ];
    try (simpl; tauto);
    repeat match goal with
           | |- context [match ?o with Some _ => _ | None => _ end] =>
               destruct o; try (simpl; tauto)
           | |- context [match ?l with [] => _ | _ :: _ => _ end] =>
               destruct l; try (simpl; tauto)
           end;
    apply Hcall.
Qed.

(** ** The firmware extension *)

(** SBI_EXT_FIRMWARE_CODE_BASE_START has no bit below bit 24. *)
Lemma firmware_base_lor (x : Z) :
  0 <= x <= 0xFFFFFF ->
  Z.lor SBI_EXT_FIRMWARE_CODE_BASE_START x =
  SBI_EXT_FIRMWARE_CODE_BASE_START + x.
Proof.
  intros Hx. symmetry. apply Z.add_nocarry_lor.
  apply Z.bits_inj'. intros n Hn.
  rewrite Z.land_spec, Z.bits_0.
  destruct (Z_lt_le_dec n 24) as [Hlow | Hhigh].
  - change SBI_EXT_FIRMWARE_CODE_BASE_START with (Z.shiftl 10 24).
    rewrite Z.shiftl_spec_low by exact Hlow. reflexivity.
  - assert (Hbit : Z.testbit x n = false).
    { destruct (Z.eq_dec x 0) as [-> | Hnz].
      - apply Z.bits_0.
      - apply Z.bits_above_log2; [lia | ].
        assert (Z.log2 x < 24) by (apply Z.log2_lt_pow2; lia).
        lia. }
    rewrite Hbit. apply andb_false_r.
Qed.

(** X9: for an implementation id of at most 24 bits SBI_EDK2_FW_EXT lies
    between SBI_EXT_FIRMWARE_CODE_BASE_START and
    SBI_EXT_FIRMWARE_CODE_BASE_END, outside the vendor range; SbiVendorCall
    on it stops at the assertion. *)
Theorem SBI_EDK2_FW_EXT_range (FunctionId NumArgs : Z) (Args : list Z)
    (m : Machine RT) :
  0 <= SBI_OPENSBI_IMPID itf <= 0xFFFFFF ->
  SBI_EXT_FIRMWARE_CODE_BASE_START <= SBI_EDK2_FW_EXT itf
    <= SBI_EXT_FIRMWARE_CODE_BASE_END /\
  SbiVendorCall sbi_ecall va_order
      (SBI_EDK2_FW_EXT itf) FunctionId NumArgs Args m =
    (AssertionFailure, m).
Proof.
  intros Himp. unfold SBI_EDK2_FW_EXT.
  rewrite firmware_base_lor by exact Himp.
  unfold SBI_EXT_FIRMWARE_CODE_BASE_START, SBI_EXT_FIRMWARE_CODE_BASE_END.
  split; [lia | ].
  unfold SbiVendorCall. unfold Bind at 1. unfold ASSERT.
  destruct (Z.leb_spec (0xa000000 + SBI_OPENSBI_IMPID itf) 0x09FFFFFF);
    [lia | ].
  rewrite andb_false_r. reflexivity.
Qed.


End MoreProperties.

(** ** The further properties on the concrete platform *)

(** The word 2^64 - 5 and the converted code -5 both give EFI_LOAD_ERROR. *)
Lemma TranslateError_injective_witness :
  fst (TranslateError (to_UINTN SBI_ERR_INVALID_ADDRESS) legacy_machine) =
    Returned EFI_LOAD_ERROR /\
  fst (TranslateError 18446744073709551611 base_time_machine) =
    Returned EFI_LOAD_ERROR /\
  to_UINTN SBI_ERR_INVALID_ADDRESS = 18446744073709551611.
Proof.
  assert (H1 : fst (TranslateError (to_UINTN SBI_ERR_INVALID_ADDRESS)
                      legacy_machine) = Returned EFI_LOAD_ERROR)
    by reflexivity.
  assert (H2 : fst (TranslateError 18446744073709551611 base_time_machine) =
               Returned EFI_LOAD_ERROR) by reflexivity.
  split; [exact H1 | ]. split; [exact H2 | ].
  exact (TranslateError_injective (list Z) _ _ EFI_LOAD_ERROR _ _ H1 H2).
Defined.

(** The implementation-id call on the runtime with the base extension. *)
Lemma SbiCall_result_words_witness :
  SbiCall model_ecall 0x10 1 0 0 0 0 0 0 base_time_machine =
    (Returned {| error := 0; value := 0 |},
     snd (SbiCall model_ecall 0x10 1 0 0 0 0 0 0 base_time_machine)) /\
  traps (snd (SbiCall model_ecall 0x10 1 0 0 0 0 0 0 base_time_machine)) =
    traps base_time_machine ++ [SbiCall_regs 0x10 1 0 0 0 0 0 0].
Proof.
  assert (H : SbiCall model_ecall 0x10 1 0 0 0 0 0 0 base_time_machine =
              (Returned {| error := 0; value := 0 |},
               snd (SbiCall model_ecall 0x10 1 0 0 0 0 0 0
                      base_time_machine))) by reflexivity.
  split; [exact H | ].
  exact (proj2 (proj2 (proj2 (proj2 (proj2
           (SbiCall_result_words (list Z) model_ecall 0x10 1 0 0 0 0 0 0
              base_time_machine _ _ H)))))).
Defined.

(** A vendor call with two of three passed arguments used, compiled with
    the rightmost argument evaluated first. *)
Lemma SbiVendorCall_forwards_witness :
  0x09000000 <= 0x09000001 <= 0x09FFFFFF /\
  (2 <= 6)%nat /\
  (2 <= length [5; 6; 7])%nat /\
  Permutation (right_to_left 2) (seq 0 2) /\
  exists (regs : Regs) (vs : list Z),
    length vs = 2%nat /\
    (forall k p : nat,
        right_to_left 2 !! k = Some p -> vs !! p = [5; 6; 7] !! k) /\
    arg_slots regs = map to_UINTN vs ++ repeat 0 (6 - 2)%nat /\
    a6 regs = to_UINTN 2 /\
    a7 regs = 0x09000001 /\
    SbiVendorCall model_ecall right_to_left 0x09000001 2 (Z.of_nat 2)
      [5; 6; 7] legacy_machine =
    TranslateError
      (to_UINTN (fst (fst (model_ecall regs
                             (mem legacy_machine, runtime legacy_machine)))))
      (trap_machine model_ecall regs legacy_machine).
Proof.
  assert (Hr : 0x09000000 <= 0x09000001 <= 0x09FFFFFF) by lia.
  assert (Hn : (2 <= 6)%nat) by lia.
  assert (Hl : (2 <= length [5; 6; 7])%nat) by (simpl; lia).
  assert (Hp : Permutation (right_to_left 2) (seq 0 2))
    by (apply perm_swap).
  split; [exact Hr | ]. split; [exact Hn | ]. split; [exact Hl | ].
  split; [exact Hp | ].
  exact (SbiVendorCall_forwards (list Z) model_ecall right_to_left
           0x09000001 2 2 [5; 6; 7] legacy_machine Hr Hn Hl Hp).
Defined.

(** The trap of a vendor call with two arguments, compiled with the
    rightmost argument evaluated first. *)
Lemma SbiVendorCall_traps_in_vendor_range_witness :
  In (SbiCall_regs 0x09000001 2 6 5 0 0 0 0)
     (traps (snd (SbiVendorCall model_ecall right_to_left 0x09000001 2 2 [5; 6]
                    legacy_machine))) /\
  (In (SbiCall_regs 0x09000001 2 6 5 0 0 0 0) (traps legacy_machine) \/
   (traps (snd (SbiVendorCall model_ecall right_to_left 0x09000001 2 2 [5; 6]
                  legacy_machine)) =
      traps legacy_machine ++ [SbiCall_regs 0x09000001 2 6 5 0 0 0 0] /\
    a7 (SbiCall_regs 0x09000001 2 6 5 0 0 0 0) = 0x09000001 /\
    0x09000000 <= a7 (SbiCall_regs 0x09000001 2 6 5 0 0 0 0) <= 0x09FFFFFF /\
    a6 (SbiCall_regs 0x09000001 2 6 5 0 0 0 0) = to_UINTN 2)).
Proof.
  assert (H : In (SbiCall_regs 0x09000001 2 6 5 0 0 0 0)
                (traps (snd (SbiVendorCall model_ecall right_to_left
                    0x09000001 2 2 [5; 6]
                               legacy_machine))))
    by (left; reflexivity).
  split; [exact H | ].
  exact (SbiVendorCall_traps_in_vendor_range (list Z) model_ecall
           right_to_left
           0x09000001 2 2 [5; 6] legacy_machine _ H).
Defined.

(** The firmware extension id of the concrete platform. *)
Lemma SBI_EDK2_FW_EXT_range_witness :
  0 <= SBI_OPENSBI_IMPID opensbi_interface <= 0xFFFFFF /\
  SBI_EXT_FIRMWARE_CODE_BASE_START <= SBI_EDK2_FW_EXT opensbi_interface
    <= SBI_EXT_FIRMWARE_CODE_BASE_END /\
  SbiVendorCall model_ecall right_to_left
      (SBI_EDK2_FW_EXT opensbi_interface) 0 0 []
    legacy_machine = (AssertionFailure, legacy_machine).
Proof.
  assert (H : 0 <= SBI_OPENSBI_IMPID opensbi_interface <= 0xFFFFFF)
    by (simpl; lia).
  split; [exact H | ].
  exact (SBI_EDK2_FW_EXT_range opensbi_interface (list Z) model_ecall
           right_to_left 0 0 []
           legacy_machine H).
Defined.

